(** * Irish travel advisory map: the scraper and the map generator

    A shallow embedding of [scrape_advisories.py] and [create_map.py].

    Modelling choices.
    - A Python [str] is a [string] of bytes.  [lower], [title] and [strip]
      act on the ASCII range only: a letter outside it keeps its case.
      Every marker and keyword the programs test for is ASCII.
    - A level is an integer; the floats that pandas makes of a column with
      missing values are not modelled.
    - A parsed document ([BeautifulSoup]) is the list of its tags in
      document order; [find] returns the first tag that matches.
    - The network, the file system and the console are a [World] that the
      programs thread through; an exception carries its message. *)

From Stdlib Require Import Ascii DecimalString.
From stdpp Require Import base option list strings gmap fin_maps.

Local Open Scope string_scope.

Set Warnings "-clear-no-such-hyp".

(* ===================================================================== *)
(** ** Python string methods *)
(* ===================================================================== *)

Module Py.

Definition nl : string := String (Ascii.ascii_of_nat 10) EmptyString.
Definition dq : string := String (Ascii.ascii_of_nat 34) EmptyString.

Definition is_upper (c : ascii) : bool :=
  let n := Ascii.nat_of_ascii c in Nat.leb 65 n && Nat.leb n 90.

Definition is_lower (c : ascii) : bool :=
  let n := Ascii.nat_of_ascii c in Nat.leb 97 n && Nat.leb n 122.

Definition is_cased (c : ascii) : bool := is_upper c || is_lower c.

(** [str.isspace] on the ASCII range: TAB, LF, VT, FF, CR, FS, GS, RS, US
    and the space. *)
Definition is_space (c : ascii) : bool :=
  let n := Ascii.nat_of_ascii c in
  (Nat.leb 9 n && Nat.leb n 13) || (Nat.leb 28 n && Nat.leb n 32).

Definition lower_ascii (c : ascii) : ascii :=
  if is_upper c then Ascii.ascii_of_nat (Ascii.nat_of_ascii c + 32) else c.

Definition upper_ascii (c : ascii) : ascii :=
  if is_lower c then Ascii.ascii_of_nat (Ascii.nat_of_ascii c - 32) else c.

(** [s.lower()] *)
Fixpoint lower (s : string) : string :=
  match s with
  | EmptyString => EmptyString
  | String c s' => String (lower_ascii c) (lower s')
  end.

(** [s.startswith(p)] *)
Fixpoint startswith (s p : string) {struct p} : bool :=
  match p, s with
  | EmptyString, _ => true
  | String _ _, EmptyString => false
  | String a p', String b s' => if Ascii.eqb a b then startswith s' p' else false
  end.

(** [sub in s] *)
Fixpoint str_in (sub s : string) : bool :=
  startswith s sub ||
  match s with
  | EmptyString => false
  | String _ s' => str_in sub s'
  end.

(** [s.count(c)] for a pattern [c] of one character. *)
Fixpoint count (s : string) (c : ascii) : nat :=
  match s with
  | EmptyString => 0
  | String a s' => (if Ascii.eqb a c then 1 else 0) + count s' c
  end.

(** [s.rstrip(c)] for a one-character set [c]. *)
Fixpoint rstrip (s : string) (c : ascii) : string :=
  match s with
  | EmptyString => EmptyString
  | String a s' =>
      match rstrip s' c with
      | EmptyString => if Ascii.eqb a c then EmptyString else String a EmptyString
      | r => String a r
      end
  end.

(** [s.split(sep)] for a separator of one character: never empty. *)
Fixpoint split (s : string) (sep : ascii) : list string :=
  match s with
  | EmptyString => [EmptyString]
  | String a s' =>
      if Ascii.eqb a sep then EmptyString :: split s' sep
      else match split s' sep with
           | h :: t => String a h :: t
           | [] => [String a EmptyString]
           end
  end.

(** [l[-1]] on a list of strings that is not empty. *)
Definition last_item (l : list string) : string := List.last l EmptyString.

(** [s.replace(a, b)] for one-character [a] and [b]. *)
Fixpoint replace (s : string) (a b : ascii) : string :=
  match s with
  | EmptyString => EmptyString
  | String c s' => String (if Ascii.eqb c a then b else c) (replace s' a b)
  end.

(** [s.title()]: a cased character is upper-cased after an uncased one and
    lower-cased after a cased one. *)
Fixpoint title_from (previous_is_cased : bool) (s : string) : string :=
  match s with
  | EmptyString => EmptyString
  | String c s' =>
      String (if is_cased c
              then if previous_is_cased then lower_ascii c else upper_ascii c
              else c)
             (title_from (is_cased c) s')
  end.

Definition title (s : string) : string := title_from false s.

(** [s.strip()] *)
Fixpoint lstrip_ws (s : string) : string :=
  match s with
  | EmptyString => EmptyString
  | String a s' => if is_space a then lstrip_ws s' else s
  end.

Fixpoint rstrip_ws (s : string) : string :=
  match s with
  | EmptyString => EmptyString
  | String a s' =>
      match rstrip_ws s' with
      | EmptyString => if is_space a then EmptyString else String a EmptyString
      | r => String a r
      end
  end.

Definition strip (s : string) : string := rstrip_ws (lstrip_ws s).

(** [sep.join(l)] *)
Fixpoint join (sep : string) (l : list string) : string :=
  match l with
  | [] => EmptyString
  | [x] => x
  | x :: l' => x +:+ sep +:+ join sep l'
  end.

(** [s * n] *)
Fixpoint repeat (s : string) (n : nat) : string :=
  match n with
  | O => EmptyString
  | S n' => s +:+ repeat s n'
  end.

(** [str(n)] for a natural number. *)
Definition str_nat (n : nat) : string := NilEmpty.string_of_uint (Nat.to_uint n).

(** [str(z)] for an integer. *)
Definition str_Z (z : Z) : string :=
  if (z <? 0)%Z then "-" +:+ str_nat (Z.to_nat (- z)) else str_nat (Z.to_nat z).

End Py.

(* ===================================================================== *)
(** ** Documents, exceptions and the world *)
(* ===================================================================== *)

(** A tag of a parsed page: its name, the tokens of its [class] attribute
    (empty when it has none), its [href] attribute and [get_text()]. *)
Record Tag := mkTag {
  tag_name : string;
  tag_class : list string;
  tag_href : option string;
  tag_text : string
}.

(** A parsed page: its tags in document order. *)
Definition Soup := list Tag.

(** [soup.find(name, class_=cls)]: the first tag of that name one of whose
    class tokens is [cls]. *)
Definition find (soup : Soup) (name cls : string) : option Tag :=
  List.find (fun t => String.eqb (tag_name t) name && bool_decide (cls ∈ tag_class t)) soup.

(** [soup.find_all(name, href=True)], each tag given by its [href]. *)
Definition find_all_href (soup : Soup) (name : string) : list string :=
  omap (fun t => if String.eqb (tag_name t) name then tag_href t else None) soup.

(** An exception, with the text [str(e)] gives. *)
Inductive exn :=
  | FileNotFoundError (msg : string)
  | Exception (msg : string).

(** [str(e)] *)
Definition str_exn (e : exn) : string :=
  match e with FileNotFoundError m | Exception m => m end.

(** What [BeautifulSoup(response.content, 'html.parser')] does with a body. *)
Inductive Content :=
  | Unparsable (e : exn)
  | Html (soup : Soup).

(** What [requests.get] does: it raises, or it answers. *)
Inductive HttpOutcome :=
  | RequestFails (e : exn)
  | Response (status_code : Z) (reason : string) (content : Content).

Record CountryLink := mkLink { country : string; url : string }.

#[global] Instance CountryLink_eq_dec : EqDecision CountryLink.
Proof. solve_decision. Defined.

(** A row of the assembled table.  [advisory_level] is [None] for Python's
    [None] or NaN; [advisory_label] is [None] until the label is attached
    (and NaN when the level has no label). *)
Record AdvisoryRecord := mkRecord {
  rec_country : string;
  rec_url : string;
  advisory_level : option Z;
  country_standardized : string;
  advisory_label : option string
}.

Inductive Event :=
  | Stdout (text : string)
  | StdoutValueCounts (counts : list (Z * nat))
  | HttpGet (target : string)
  | Sleep (seconds : nat)
  | ToCsv (path : string) (rows : list AdvisoryRecord)
  | FigShow (traces : list (string * option string))
  | WriteImage (path : string)
  | WriteHtml (path : string).

(** The world the two scripts run in.  [http n u] is what the request
    number [n] gets when it asks for [u]; [csv_file] is the content of
    [irish_travel_advisories.csv] when it exists; [image_export] and
    [html_export] say how [write_image] and [write_html] fail, if they do;
    [trace] is what has been done so far, oldest first. *)
Record World := mkWorld {
  http : nat -> string -> HttpOutcome;
  requests_made : nat;
  csv_file : option (list AdvisoryRecord);
  image_export : option exn;
  html_export : option exn;
  trace : list Event
}.

(** *** The monad of the scripts: state and exceptions *)

Inductive outcome (A : Type) :=
  | Return (a : A)
  | Raise (e : exn).
Arguments Return {A} a.
Arguments Raise {A} e.

Definition M (A : Type) : Type := World -> outcome A * World.

#[global] Instance M_ret : MRet M := fun A a w => (Return a, w).

#[global] Instance M_bind : MBind M := fun A B f m w =>
  match m w with
  | (Return a, w') => f a w'
  | (Raise e, w') => (Raise e, w')
  end.

(** [raise e] *)
Definition raise {A} (e : exn) : M A := fun w => (Raise e, w).

(** [try: body except Exception as e: handler(e)] *)
Definition try_except {A} (body : M A) (handler : exn -> M A) : M A := fun w =>
  match body w with
  | (Return a, w') => (Return a, w')
  | (Raise e, w') => handler e w'
  end.

(** One more event in the trace. *)
Definition emit (ev : Event) : M unit := fun w =>
  (Return tt,
   mkWorld (http w) (requests_made w) (csv_file w) (image_export w)
           (html_export w) (trace w ++ [ev])).

(** [print(s)] and [print(s, end=e)] *)
Definition print (s : string) : M unit := emit (Stdout (s +:+ Py.nl)).
Definition print_end (s e : string) : M unit := emit (Stdout (s +:+ e)).

(** [sleep(n)] *)
Definition sleep (n : nat) : M unit := emit (Sleep n).

(** [requests.get(u, headers=HEADERS, timeout=10)] *)
Definition requests_get (u : string) : M (Z * string * Content) := fun w =>
  let w' := mkWorld (http w) (S (requests_made w)) (csv_file w) (image_export w)
                    (html_export w) (trace w ++ [HttpGet u]) in
  match http w (requests_made w) u with
  | RequestFails e => (Raise e, w')
  | Response code reason body => (Return (code, reason, body), w')
  end.

(** [response.raise_for_status()] of the requests library. *)
Definition raise_for_status (u : string) (response : Z * string * Content) : M unit :=
  let '(code, reason, _) := response in
  if (400 <=? code)%Z && (code <? 500)%Z then
    raise (Exception (Py.str_Z code +:+ " Client Error: " +:+ reason +:+ " for url: " +:+ u))
  else if (500 <=? code)%Z && (code <? 600)%Z then
    raise (Exception (Py.str_Z code +:+ " Server Error: " +:+ reason +:+ " for url: " +:+ u))
  else mret tt.

(** [BeautifulSoup(response.content, 'html.parser')] *)
Definition BeautifulSoup (response : Z * string * Content) : M Soup :=
  match response.2 with
  | Unparsable e => raise e
  | Html soup => mret soup
  end.

(** A [dict] literal: a later entry replaces an earlier one of the same key. *)
Definition dict `{Countable K} {V} (entries : list (K * V)) : gmap K V :=
  fold_left (fun m kv => <[kv.1 := kv.2]> m) entries ∅.

(** A [DataFrame] of links: each row with its index label. *)
Definition DataFrame := list (nat * CountryLink).

(** [pd.DataFrame(rows)] *)
Definition pd_DataFrame (rows : list CountryLink) : DataFrame :=
  imap (fun i r => (i, r)) rows.

(** [df.drop_duplicates()]: the first row of each value stays, with its
    index label. *)
Fixpoint drop_duplicates_from (seen : list CountryLink) (df : DataFrame) : DataFrame :=
  match df with
  | [] => []
  | (i, r) :: df' =>
      if bool_decide (r ∈ seen) then drop_duplicates_from seen df'
      else (i, r) :: drop_duplicates_from (r :: seen) df'
  end.

Definition drop_duplicates (df : DataFrame) : DataFrame := drop_duplicates_from [] df.

(* ===================================================================== *)
(** ** scrape_advisories.py *)
(* ===================================================================== *)

Definition base_url : string := "https://www.ireland.ie/en/dfa/overseas-travel/advice/".

Definition exclusion_keywords : list string := ["covid"; "index"; "search"; "about"].

(** Line 39: ['/advice/' in href and href.count('/') >= 5]. *)
Definition matches_pattern (href : string) : bool :=
  Py.str_in "/advice/" href && Nat.leb 5 (Py.count href "/"%char).

(** Line 41: [not any(x in href.lower() for x in [...])]. *)
Definition is_country_page (href : string) : bool :=
  negb (existsb (fun x => Py.str_in x (Py.lower href)) exclusion_keywords).

(** Lines 42 to 49: the entry appended for an anchor that is kept. *)
Definition country_link (href : string) : CountryLink :=
  let full_url :=
    if Py.startswith href "http" then href else "https://www.ireland.ie" +:+ href in
  let country_slug := Py.last_item (Py.split (Py.rstrip href "/"%char) "/"%char) in
  let country_name := Py.title (Py.replace country_slug "-"%char " "%char) in
  mkLink country_name full_url.

(** Lines 36 to 49: the loop over the anchors, [country_links] accumulating. *)
Fixpoint collect_links (hrefs : list string) (country_links : list CountryLink)
  : list CountryLink :=
  match hrefs with
  | [] => country_links
  | href :: rest =>
      if matches_pattern href then
        if is_country_page href then
          collect_links rest (country_links ++ [country_link href])
        else collect_links rest country_links
      else collect_links rest country_links
  end.

(** The JavaScript printed by the handler of [get_country_urls]. *)
Definition console_script : string :=
  Py.join Py.nl
    [ EmptyString;
      "countries = [];";
      "document.querySelectorAll('a[href*=" +:+ Py.dq +:+ "/advice/" +:+ Py.dq
        +:+ "]').forEach(link => {";
      "    const href = link.getAttribute('href');";
      "    if (href && href.split('/').length >= 5) {";
      "        const country = href.split('/').filter(x=>x).pop();";
      "        if (!['covid','index','search','about'].includes(country)) {";
      "            countries.push({";
      "                country: country.replace(/-/g, ' '),";
      "                url: 'https://www.ireland.ie' + href";
      "            });";
      "        }";
      "    }";
      "});";
      "console.log(JSON.stringify(countries, null, 2));";
      "        " ].

(** Lines 55 to 77: what the handler of [get_country_urls] prints. *)
Definition manual_fallback (e : exn) : list string :=
  [ "Error fetching country list: " +:+ str_exn e;
    Py.nl +:+ "The website may be blocking automated requests.";
    "Alternative method: Use your browser's developer console";
    Py.nl +:+ "1. Go to: https://www.ireland.ie/en/dfa/overseas-travel/advice/";
    "2. Open console (F12) and paste this JavaScript:" +:+ Py.nl;
    console_script;
    Py.nl +:+ "3. Copy the output and save it as 'countries.json'";
    "4. Then modify this script to load from that file instead" ].

Fixpoint print_all (lines : list string) : M unit :=
  match lines with
  | [] => mret tt
  | l :: rest => print l;; print_all rest
  end.

(** [get_country_urls()]: [None] is Python's [None]. *)
Definition get_country_urls : M (option DataFrame) :=
  try_except
    (response ← requests_get base_url;
     raise_for_status base_url response;;
     soup ← BeautifulSoup response;
     let country_links := collect_links (find_all_href soup "a") [] in
     let df := drop_duplicates (pd_DataFrame country_links) in
     mret (Some df))
    (fun e => print_all (manual_fallback e);; mret None).

(** Lines 99 to 106: the tests on the class string. *)
Definition class_level (classes_str : string) : option Z :=
  if Py.str_in "do-not-travel" classes_str then Some 4%Z
  else if Py.str_in "avoid-non-essential-travel" classes_str
          || Py.str_in "avoid-unnecessary-travel" classes_str then Some 3%Z
  else if Py.str_in "high-degree-of-caution" classes_str
          || Py.str_in "high-degree-caution" classes_str then Some 2%Z
  else if Py.str_in "normal-precautions" classes_str then Some 1%Z
  else None.

(** Lines 113 to 120: the tests on the text of the title. *)
Definition title_level (title_text : string) : option Z :=
  if Py.str_in "do not travel" title_text then Some 4%Z
  else if Py.str_in "avoid non-essential travel" title_text
          || Py.str_in "avoid unnecessary travel" title_text then Some 3%Z
  else if Py.str_in "high degree of caution" title_text then Some 2%Z
  else if Py.str_in "normal precautions" title_text then Some 1%Z
  else None.

(** Lines 108 to 122: the fallback on the [h3] title, down to [return None]. *)
Definition title_fallback (soup : Soup) : option Z :=
  match find soup "h3" "accordion__title" with
  | Some accordion_title =>
      let title_text := Py.lower (Py.strip (tag_text accordion_title)) in
      title_level title_text
  | None => None
  end.

(** Lines 92 to 122: what the body returns once the page is parsed.  A tag
    that [find] returns is true in [if advisory_div:], whatever it holds.
    A branch of the first cascade returns at once; without one the control
    falls through to the fallback. *)
Definition level_of_soup (soup : Soup) : option Z :=
  match find soup "div" "accordion_travel" with
  | Some advisory_div =>
      let classes := tag_class advisory_div in
      let classes_str := Py.lower (Py.join " " classes) in
      match class_level classes_str with
      | Some level => Some level
      | None => title_fallback soup
      end
  | None => title_fallback soup
  end.

(** [get_advisory_level(url)] *)
Definition get_advisory_level (u : string) : M (option Z) :=
  try_except
    (response ← requests_get u;
     raise_for_status u response;;
     soup ← BeautifulSoup response;
     mret (level_of_soup soup))
    (fun e => print ("  Error: " +:+ str_exn e);; mret None).

Definition mapping : gmap string string :=
  dict [ ("Usa", "United States");
         ("United States Of America", "United States");
         ("Uk", "United Kingdom");
         ("Uae", "United Arab Emirates");
         ("Democratic Republic Of The Congo", "Democratic Republic of the Congo");
         ("Drc", "Democratic Republic of the Congo");
         ("Congo", "Republic of the Congo");
         ("North Korea", "North Korea");
         ("Dpr Korea", "North Korea");
         ("South Korea", "South Korea");
         ("Republic Of Korea", "South Korea");
         ("Czech Republic", "Czechia");
         ("Cote D'ivoire", "Côte d'Ivoire");
         ("Ivory Coast", "Côte d'Ivoire");
         ("Burma", "Myanmar");
         ("Cape Verde", "Cabo Verde");
         ("East Timor", "Timor-Leste");
         ("Laos", "Lao PDR");
         ("Macedonia", "North Macedonia");
         ("Swaziland", "Eswatini");
         ("The Bahamas", "Bahamas");
         ("The Gambia", "Gambia") ].

(** [standardize_country_name(country)]: [mapping.get(country, country)]. *)
Definition standardize_country_name (country : string) : string :=
  default country (mapping !! country).

(** The truth value of [level] in [if level:]. *)
Definition truthy (level : option Z) : bool :=
  match level with
  | Some z => negb (z =? 0)%Z
  | None => false
  end.

(** Lines 181 to 189: the loop over the rows of [countries_df]. *)
Fixpoint scrape_levels (total : nat) (rows : DataFrame) (advisory_levels : list (option Z))
  : M (list (option Z)) :=
  match rows with
  | [] => mret advisory_levels
  | (idx, row) :: rest =>
      print_end (Py.str_nat (idx + 1) +:+ "/" +:+ Py.str_nat total +:+ ": "
                 +:+ country row +:+ "...") " ";;
      level ← get_advisory_level (url row);
      (if truthy level
       then print ("Level " +:+ from_option Py.str_Z "None" level)
       else print "Unable to determine");;
      sleep 1;;
      scrape_levels total rest (advisory_levels ++ [level])
  end.

(** Lines 192 and 193: the two new columns. *)
Definition add_columns (countries_df : DataFrame) (advisory_levels : list (option Z))
  : list AdvisoryRecord :=
  zip_with (fun r level =>
              mkRecord (country r.2) (url r.2) level
                       (standardize_country_name (country r.2)) None)
           countries_df advisory_levels.

(** Line 196: [countries_df[countries_df['advisory_level'].notna()]]. *)
Definition notna (rows : list AdvisoryRecord) : list AdvisoryRecord :=
  List.filter (fun r => bool_decide (is_Some (advisory_level r))) rows.

Definition level_labels : gmap Z string :=
  dict [ (1%Z, "Normal Precautions");
         (2%Z, "High Degree of Caution");
         (3%Z, "Avoid Unnecessary Travel");
         (4%Z, "Do Not Travel") ].

(** Line 205: [advisory_level.map(level_labels)]. *)
Definition attach_labels (rows : list AdvisoryRecord) : list AdvisoryRecord :=
  map (fun r =>
         mkRecord (rec_country r) (rec_url r) (advisory_level r) (country_standardized r)
                  (advisory_level r ≫= fun level => level_labels !! level))
      rows.

(** Lines 192 to 205: the table that is saved. *)
Definition assemble (countries_df : DataFrame) (advisory_levels : list (option Z))
  : list AdvisoryRecord :=
  attach_labels (notna (add_columns countries_df advisory_levels)).

Definition csv_path : string := "irish_travel_advisories.csv".

(** [df.to_csv(path, index=False)] *)
Definition to_csv (rows : list AdvisoryRecord) (path : string) : M unit := fun w =>
  (Return tt,
   mkWorld (http w) (requests_made w) (Some rows) (image_export w) (html_export w)
           (trace w ++ [ToCsv path rows])).

(** [series.value_counts().sort_index()] *)
Fixpoint count_value (v : Z) (counts : list (Z * nat)) : list (Z * nat) :=
  match counts with
  | [] => [(v, 1)]
  | (k, c) :: counts' =>
      if (v <? k)%Z then (v, 1) :: counts
      else if (v =? k)%Z then (k, S c) :: counts'
      else (k, c) :: count_value v counts'
  end.

Definition value_counts (rows : list AdvisoryRecord) : list (Z * nat) :=
  foldr count_value [] (omap advisory_level rows).

(** Lines 170 to 172: the branch of [main] that gives up. *)
Definition no_listing : M unit :=
  print (Py.nl +:+ "Unable to automatically scrape country list.");;
  print "Please use the manual method described above.".

(** Lines 174 to 216: the rest of [main] once the listing is there. *)
Definition scrape_and_save (countries_df : DataFrame) : M unit :=
  print ("Found " +:+ Py.str_nat (length countries_df) +:+ " countries" +:+ Py.nl);;
  print "Scraping advisory levels (this will take a few minutes)...";;
  print (Py.repeat "-" 60);;
  advisory_levels ← scrape_levels (length countries_df) countries_df [];
  let countries_with_data := assemble countries_df advisory_levels in
  to_csv countries_with_data csv_path;;
  print (Py.nl +:+ Py.repeat "=" 60);;
  print ("Successfully scraped " +:+ Py.str_nat (length countries_with_data)
         +:+ " countries");;
  print (Py.repeat "=" 60);;
  print (Py.nl +:+ "Advisory level distribution:");;
  emit (StdoutValueCounts (value_counts countries_with_data));;
  print (Py.nl +:+ "Data saved to 'irish_travel_advisories.csv'");;
  print "Run 'python create_map.py' to generate the map visualization.".

(** [main()] *)
Definition main : M unit :=
  print (Py.repeat "=" 60);;
  print "Irish Travel Advisory Scraper";;
  print (Py.repeat "=" 60);;
  print (Py.nl +:+ "Fetching country list from DFA website...");;
  countries_df ← get_country_urls;
  match countries_df with
  | None => no_listing
  | Some countries_df =>
      if Nat.eqb (length countries_df) 0 then no_listing
      else scrape_and_save countries_df
  end.

(* ===================================================================== *)
(** ** create_map.py *)
(* ===================================================================== *)

(** [pd.read_csv('irish_travel_advisories.csv')] *)
Definition read_csv (path : string) : M (list AdvisoryRecord) := fun w =>
  match csv_file w with
  | Some rows => (Return rows, w)
  | None =>
      (Raise (FileNotFoundError
                ("[Errno 2] No such file or directory: '" +:+ path +:+ "'")), w)
  end.

(** [df['advisory_level'].astype(int)]: a missing level cannot be cast. *)
Definition astype_int (df : list AdvisoryRecord) : M (list Z) :=
  match mapM advisory_level df with
  | Some levels => mret levels
  | None => raise (Exception "Cannot convert non-finite values (NA or inf) to integer")
  end.

Definition color_map : gmap string string :=
  dict [ ("1", "green"); ("2", "yellow"); ("3", "orange"); ("4", "red") ].

Definition category_orders : list string := ["1"; "2"; "3"; "4"].

Definition name_mapping : gmap string string :=
  dict [ ("1", "Level 1: Normal Precautions");
         ("2", "Level 2: High Degree of Caution");
         ("3", "Level 3: Avoid Unnecessary Travel");
         ("4", "Level 4: Do Not Travel");
         ("1.0", "Level 1: Normal Precautions");
         ("2.0", "Level 2: High Degree of Caution");
         ("3.0", "Level 3: Avoid Unnecessary Travel");
         ("4.0", "Level 4: Do Not Travel") ].

(** The traces of the figure, each a name and its colour when the colour
    map has one: the categories of [category_orders] that occur, then the
    others in order of appearance. *)
Definition choropleth (cats : list string) : list (string * option string) :=
  let listed := List.filter (fun c => bool_decide (c ∈ cats)) category_orders in
  let others := List.filter (fun c => bool_decide (c ∉ category_orders))
                (reverse (remove_dups (reverse cats))) in
  map (fun c => (c, color_map !! c)) (listed ++ others).

(** [fig.for_each_trace(lambda t: t.update(name=name_mapping.get(t.name, t.name)))] *)
Definition rename_traces (fig : list (string * option string)) : list (string * option string) :=
  map (fun t => (default t.1 (name_mapping !! t.1), t.2)) fig.

Definition try_write (attempt : Event) (failure : World -> option exn) : M unit := fun w =>
  let w' := mkWorld (http w) (requests_made w) (csv_file w) (image_export w)
                    (html_export w) (trace w ++ [attempt]) in
  match failure w with
  | Some e => (Raise e, w')
  | None => (Return tt, w')
  end.

(** [fig.write_image(path, width=1920, height=1080, scale=2)] *)
Definition write_image (path : string) : M unit := try_write (WriteImage path) image_export.

(** [fig.write_html(path)] *)
Definition write_html (path : string) : M unit := try_write (WriteHtml path) html_export.

(** [try: body except FileNotFoundError: handler] *)
Definition try_except_FileNotFoundError {A} (body : M A) (handler : M A) : M A := fun w =>
  match body w with
  | (Raise (FileNotFoundError _), w') => handler w'
  | r => r
  end.

Definition png_path : string := "irish_travel_advisory_map.png".
Definition html_path : string := "irish_travel_advisory_map.html".

(** Lines 88 to 99: the two exports. *)
Definition export_figure : M unit :=
  try_except
    (write_image png_path;;
     print "Map saved as 'irish_travel_advisory_map.png' (high resolution)")
    (fun e =>
       print ("Could not save PNG: " +:+ str_exn e);;
       print "Note: PNG export requires 'kaleido' package: pip install kaleido");;
  write_html html_path;;
  print "Interactive map saved as 'irish_travel_advisory_map.html'";;
  print (Py.nl +:+ "You can open the HTML file in your browser to explore the interactive map.").

(** [create_map()] *)
Definition create_map : M unit :=
  loaded ← try_except_FileNotFoundError
             (df ← read_csv csv_path; mret (Some df))
             (print "Error: 'irish_travel_advisories.csv' not found.";;
              print "Please run 'python scrape_advisories.py' first to collect the data.";;
              mret None);
  match loaded with
  | None => mret tt
  | Some df =>
      print ("Loaded data for " +:+ Py.str_nat (length df) +:+ " countries");;
      levels ← astype_int df;
      let advisory_level_cat := map Py.str_Z levels in
      let fig := rename_traces (choropleth advisory_level_cat) in
      emit (FigShow fig);;
      export_figure
  end.

(* ===================================================================== *)
(** ** The notions of the statements *)
(* ===================================================================== *)

(** *** Containment *)

(** [Contains sub s]: [sub] occurs in [s]. *)
Definition Contains (sub s : string) : Prop :=
  exists pre suf, s = pre +:+ sub +:+ suf.

(** [ContainsAnyCase m s]: [m] occurs in [s] in some mixture of letter
    cases. *)
Definition ContainsAnyCase (m s : string) : Prop :=
  exists m', Py.lower m' = Py.lower m /\ Contains m' s.

(** The first character of [m] is not a blank. *)
Definition starts_solid (m : string) : bool :=
  match m with
  | EmptyString => false
  | String c _ => negb (Py.is_space c)
  end.

(** The last character of [m] is not a blank. *)
Fixpoint ends_solid (m : string) : bool :=
  match m with
  | EmptyString => false
  | String c EmptyString => negb (Py.is_space c)
  | String _ m' => ends_solid m'
  end.

(** *** Runs in a world *)

(** The world after [n] more requests and the events [evs]. *)
Definition advance (w : World) (n : nat) (evs : list Event) : World :=
  mkWorld (http w) (n + requests_made w) (csv_file w) (image_export w) (html_export w)
          (trace w ++ evs).

(** The addresses requested in a run, in order. *)
Definition requests_of (evs : list Event) : list string :=
  omap (fun ev => match ev with HttpGet u => Some u | _ => None end) evs.

(** The tables written in a run, in order. *)
Definition tables_of (evs : list Event) : list (list AdvisoryRecord) :=
  omap (fun ev => match ev with ToCsv _ rows => Some rows | _ => None end) evs.

(** A request fails: [requests.get] raises, the status is an error status,
    or the body cannot be parsed. *)
Definition fails (o : HttpOutcome) : Prop :=
  match o with
  | RequestFails _ => True
  | Response code _ body => (400 <= code < 600)%Z \/ exists e, body = Unparsable e
  end.

(** A request is answered with the page [soup]. *)
Definition serves (o : HttpOutcome) (soup : Soup) : Prop :=
  match o with
  | RequestFails _ => False
  | Response code _ body => ~ (400 <= code < 600)%Z /\ body = Html soup
  end.

(** What the three fetching lines of a [try] body come to: the exception
    they raise or the page they parse. *)
Definition fetched (u : string) (o : HttpOutcome) : exn + Soup :=
  match o with
  | RequestFails e => inl e
  | Response code reason body =>
      if (400 <=? code)%Z && (code <? 500)%Z then
        inl (Exception (Py.str_Z code +:+ " Client Error: " +:+ reason +:+ " for url: " +:+ u))
      else if (500 <=? code)%Z && (code <? 600)%Z then
        inl (Exception (Py.str_Z code +:+ " Server Error: " +:+ reason +:+ " for url: " +:+ u))
      else match body with
           | Unparsable e => inl e
           | Html soup => inr soup
           end
  end.

(** The level a request comes to. *)
Definition level_of_outcome (u : string) (o : HttpOutcome) : option Z :=
  match fetched u o with
  | inl _ => None
  | inr soup => level_of_soup soup
  end.

(** What the handler of [get_advisory_level] prints for a request. *)
Definition error_log (u : string) (o : HttpOutcome) : list Event :=
  match fetched u o with
  | inl e => [Stdout ("  Error: " +:+ str_exn e +:+ Py.nl)]
  | inr _ => []
  end.

(** *** The cascades of the extractor *)

(** Stated after the specification: an ordered table of markers, the
    first marker of the table that occurs in the string gives the level. *)
Fixpoint first_match (table : list (string * Z)) (s : string) : option Z :=
  match table with
  | [] => None
  | (m, level) :: rest => if Py.str_in m s then Some level else first_match rest s
  end.

(** The markers of lines 99 to 105, in the order they are tested. *)
Definition class_markers : list (string * Z) :=
  [ ("do-not-travel", 4%Z);
    ("avoid-non-essential-travel", 3%Z); ("avoid-unnecessary-travel", 3%Z);
    ("high-degree-of-caution", 2%Z); ("high-degree-caution", 2%Z);
    ("normal-precautions", 1%Z) ].

(** The markers of lines 113 to 119, in the order they are tested. *)
Definition title_markers : list (string * Z) :=
  [ ("do not travel", 4%Z);
    ("avoid non-essential travel", 3%Z); ("avoid unnecessary travel", 3%Z);
    ("high degree of caution", 2%Z);
    ("normal precautions", 1%Z) ].

(** The class string of a container, as written in the page. *)
Definition class_string (d : Tag) : string := Py.join " " (tag_class d).

(** No class marker occurs in the class string of the container, in any
    case, or the page has no container. *)
Definition primary_silent (soup : Soup) : Prop :=
  forall d, find soup "div" "accordion_travel" = Some d ->
    forall m level, (m, level) ∈ class_markers -> ~ ContainsAnyCase m (class_string d).

(** No title marker occurs in the text of the title, in any case, or the
    page has no title. *)
Definition title_silent (soup : Soup) : Prop :=
  forall h, find soup "h3" "accordion__title" = Some h ->
    forall m level, (m, level) ∈ title_markers -> ~ ContainsAnyCase m (tag_text h).

(** *** The listing *)

(** The two tests of lines 39 and 41 together. *)
Definition kept (href : string) : bool := matches_pattern href && is_country_page href.

(** The table [get_country_urls] makes of a page. *)
Definition listing_of_soup (soup : Soup) : DataFrame :=
  drop_duplicates (pd_DataFrame (collect_links (find_all_href soup "a") [])).

(** Stated after the specification: the path segments of an address, the
    pieces between its slashes that are not empty. *)
Definition path_segments (href : string) : list string :=
  List.filter (fun piece => negb (String.eqb piece EmptyString)) (Py.split href "/"%char).

(** What [get_country_urls] comes to in a world. *)
Definition listing_of_outcome (o : HttpOutcome) : option DataFrame :=
  match fetched base_url o with
  | inl _ => None
  | inr soup => Some (listing_of_soup soup)
  end.

(** What the handler of [get_country_urls] prints for a request. *)
Definition fallback_log (o : HttpOutcome) : list Event :=
  match fetched base_url o with
  | inl e => map (fun l => Stdout (l +:+ Py.nl)) (manual_fallback e)
  | inr _ => []
  end.

(** *** The loop and the table *)

(** The levels the loop gets for [rows] when the first of them makes the
    request number [k] from now. *)
Fixpoint levels_from (w : World) (k : nat) (rows : DataFrame) : list (option Z) :=
  match rows with
  | [] => []
  | (_, row) :: rest =>
      level_of_outcome (url row) (http w (k + requests_made w) (url row))
      :: levels_from w (S k) rest
  end.

(** The levels and labels of [level_labels], written out. *)
Definition labelled_levels : list (Z * string) :=
  [ (1%Z, "Normal Precautions"); (2%Z, "High Degree of Caution");
    (3%Z, "Avoid Unnecessary Travel"); (4%Z, "Do Not Travel") ].

(** A row has a level from 1 to 4 and the label of that level. *)
Definition row_ok (r : AdvisoryRecord) : Prop :=
  exists level label,
    (level, label) ∈ labelled_levels /\
    advisory_level r = Some level /\ advisory_label r = Some label.

(** A result of the extractor: absent, or a level from 1 to 4. *)
Definition level_ok (level : option Z) : Prop :=
  match level with
  | None => True
  | Some z => z ∈ labelled_levels.*1
  end.

(** The world with [rows] saved in the table file. *)
Definition with_csv (w : World) (rows : list AdvisoryRecord) : World :=
  mkWorld (http w) (requests_made w) (Some rows) (image_export w) (html_export w) (trace w).

(** What [main] prints before it asks for the listing. *)
Definition banner : list Event :=
  [ Stdout (Py.repeat "=" 60 +:+ Py.nl);
    Stdout ("Irish Travel Advisory Scraper" +:+ Py.nl);
    Stdout (Py.repeat "=" 60 +:+ Py.nl);
    Stdout ((Py.nl +:+ "Fetching country list from DFA website...") +:+ Py.nl) ].

(** What [main] prints when it has no listing. *)
Definition abort_message : list Event :=
  [ Stdout ((Py.nl +:+ "Unable to automatically scrape country list.") +:+ Py.nl);
    Stdout ("Please use the manual method described above." +:+ Py.nl) ].

(** What [main] prints after the table is saved. *)
Definition report (rows : list AdvisoryRecord) : list Event :=
  [ Stdout ((Py.nl +:+ Py.repeat "=" 60) +:+ Py.nl);
    Stdout (("Successfully scraped " +:+ Py.str_nat (length rows) +:+ " countries")
            +:+ Py.nl);
    Stdout (Py.repeat "=" 60 +:+ Py.nl);
    Stdout ((Py.nl +:+ "Advisory level distribution:") +:+ Py.nl);
    StdoutValueCounts (value_counts rows);
    Stdout ((Py.nl +:+ "Data saved to 'irish_travel_advisories.csv'") +:+ Py.nl);
    Stdout ("Run 'python create_map.py' to generate the map visualization." +:+ Py.nl) ].


(** *** The exports *)

(** What is printed when the image cannot be written. *)
Definition png_warning (e : exn) : list Event :=
  [ Stdout (("Could not save PNG: " +:+ str_exn e) +:+ Py.nl);
    Stdout ("Note: PNG export requires 'kaleido' package: pip install kaleido" +:+ Py.nl) ].

(** What is printed once the interactive map is written. *)
Definition html_saved : list Event :=
  [ Stdout ("Interactive map saved as 'irish_travel_advisory_map.html'" +:+ Py.nl);
    Stdout ((Py.nl +:+ "You can open the HTML file in your browser to explore the interactive map.")
            +:+ Py.nl) ].

(** How a run ends when [write_html] is its last step that can fail. *)
Definition html_result (w : World) : outcome unit :=
  match html_export w with
  | Some e => Raise e
  | None => Return tt
  end.

(** What is printed after [write_html], when it does not raise. *)
Definition html_log (w : World) : list Event :=
  match html_export w with
  | Some _ => []
  | None => html_saved
  end.

(** *** Names and addresses of the links *)



(** The links of the anchors that pass the tests, in document order. *)
Definition links_of_soup (soup : Soup) : list CountryLink :=
  map country_link (List.filter kept (find_all_href soup "a")).

(** *** The log of the loop *)

(** Line 182: what is printed before the request for a row. *)
Definition progress_line (total idx : nat) (row : CountryLink) : string :=
  Py.str_nat (idx + 1) +:+ "/" +:+ Py.str_nat total +:+ ": " +:+ country row +:+ "...".

(** Lines 184 to 187: what is printed for the level of a row. *)
Definition level_line (level : option Z) : string :=
  if truthy level then "Level " +:+ from_option Py.str_Z "None" level
  else "Unable to determine".

(** The events of the loop over [rows] when the first of them makes the
    request number [k] from now. *)
Fixpoint scrape_log (total : nat) (w : World) (k : nat) (rows : DataFrame) : list Event :=
  match rows with
  | [] => []
  | (idx, row) :: rest =>
      Stdout (progress_line total idx row +:+ " ")
      :: HttpGet (url row)
      :: error_log (url row) (http w (k + requests_made w) (url row))
      ++ Stdout (level_line (level_of_outcome (url row)
                               (http w (k + requests_made w) (url row))) +:+ Py.nl)
      :: Sleep 1
      :: scrape_log total w (S k) rest
  end.

(** The requests and the pauses of a run, in order. *)
Definition schedule_of (evs : list Event) : list Event :=
  List.filter (fun ev => match ev with HttpGet _ | Sleep _ => true | _ => false end) evs.

(** *** Tables and counts *)

(** The row of the table for a row of the listing and its level. *)
Definition record_of (row : CountryLink) (z : Z) : AdvisoryRecord :=
  mkRecord (country row) (url row) (Some z) (standardize_country_name (country row))
           (level_labels !! z).




(** *** The log of [create_map] *)

(** What is printed when the table file is not there. *)
Definition missing_file_message : list Event :=
  [ Stdout ("Error: 'irish_travel_advisories.csv' not found." +:+ Py.nl);
    Stdout ("Please run 'python scrape_advisories.py' first to collect the data."
            +:+ Py.nl) ].

(** What is printed once the table is loaded. *)
Definition loaded_line (rows : list AdvisoryRecord) : Event :=
  Stdout (("Loaded data for " +:+ Py.str_nat (length rows) +:+ " countries") +:+ Py.nl).

(** What is printed after [write_image]. *)
Definition image_log (w : World) : list Event :=
  match image_export w with
  | Some e => png_warning e
  | None => [ Stdout ("Map saved as 'irish_travel_advisory_map.png' (high resolution)"
                      +:+ Py.nl) ]
  end.

(** The traces of the figure for the levels of a table. *)
Definition figure_of (levels : list Z) : list (string * option string) :=
  rename_traces (choropleth (map Py.str_Z levels)).

(** What [create_map] does once the table is loaded and its levels are
    integers: the figure, the image, the interactive map. *)
Definition map_log (w : World) (rows : list AdvisoryRecord) (levels : list Z) : list Event :=
  loaded_line rows :: FigShow (figure_of levels) :: WriteImage png_path
  :: image_log w ++ WriteHtml html_path :: html_log w.

(* ===================================================================== *)
(** ** Pages and worlds used as examples *)
(* ===================================================================== *)

(** A world whose every request is answered with the page [soup]. *)
Definition serving (soup : Soup) : World :=
  mkWorld (fun _ _ => Response 200 "OK" (Html soup)) 0 None None None [].

Definition example_url : string :=
  "https://www.ireland.ie/en/dfa/overseas-travel/advice/a-z-list-of-countries/france/".

(** The fixture of the specification: a container of level 4. *)
Definition page_do_not_travel : Soup :=
  [ mkTag "div" ["accordion_travel"; "do-not-travel"; "accordion"; "is-open"] None
          EmptyString ].

(** A container whose class tokens spell the words of the level 4 text. *)
Definition page_spaced_class : Soup :=
  [ mkTag "div" ["accordion_travel"; "do"; "not"; "travel"] None EmptyString ].

(** A container of level 1 over a title of level 4. *)
Definition page_level_1_title_4 : Soup :=
  [ mkTag "div" ["accordion_travel"; "normal-precautions"; "accordion"] None EmptyString;
    mkTag "h3" ["accordion__title"] None "Do Not Travel" ].

(** A container that names no level, over a title of level 4. *)
Definition page_open_container : Soup :=
  [ mkTag "div" ["accordion_travel"; "accordion"; "is-open"] None EmptyString;
    mkTag "h3" ["accordion__title"] None "  Do Not Travel " ].

(** A container of level 1 over a title with the texts of levels 2 and 4. *)
Definition page_level_1_title_2_and_4 : Soup :=
  [ mkTag "div" ["accordion_travel"; "normal-precautions"] None EmptyString;
    mkTag "h3" ["accordion__title"] None "High Degree of Caution / Do Not Travel" ].

(** A container whose class tokens spell the texts of levels 2 and 4. *)
Definition page_spaced_2_and_4 : Soup :=
  [ mkTag "div" ["accordion_travel"; "high"; "degree"; "of"; "caution";
                 "do"; "not"; "travel"] None EmptyString ].

(** A container with the class markers of levels 2 and 4. *)
Definition page_class_2_and_4 : Soup :=
  [ mkTag "div" ["accordion_travel"; "High-Degree-Of-Caution"; "DO-NOT-TRAVEL"] None
          EmptyString ].

(** A listing page with the given anchors. *)
Definition listing_page (hrefs : list string) : Soup :=
  map (fun href => mkTag "a" [] (Some href) EmptyString) hrefs.

(** The pattern that the comment of line 38 gives for a country page. *)
Definition href_of_comment : string := "/dfa/overseas-travel/advice/france/".

(** A relative address of five path segments and four slashes. *)
Definition href_relative : string := "en/dfa/overseas-travel/advice/france".

Definition href_covid : string :=
  "/en/dfa/overseas-travel/advice/a-z-list-of-countries/CoViD-19/".

(** A world whose first request times out and whose later requests are
    answered with a page of level 4. *)
Definition world_first_fails : World :=
  mkWorld (fun n _ => if Nat.eqb n 0 then RequestFails (Exception "timed out")
                      else Response 200 "OK" (Html page_do_not_travel))
          0 None None None [].

Definition iran_url : string :=
  "https://www.ireland.ie/en/dfa/overseas-travel/advice/a-z-list-of-countries/iran/".

Definition two_countries : DataFrame :=
  [ (0, mkLink "France" example_url); (1, mkLink "Iran" iran_url) ].

(** A world whose listing has two countries; the page of the first cannot
    be fetched, the page of the second is of level 4. *)
Definition world_two_countries : World :=
  mkWorld (fun n u =>
             if String.eqb u base_url then
               Response 200 "OK" (Html (listing_page [
                 "/en/dfa/overseas-travel/advice/a-z-list-of-countries/france/";
                 "/en/dfa/overseas-travel/advice/a-z-list-of-countries/iran/" ]))
             else if Py.str_in "iran" u then Response 200 "OK" (Html page_do_not_travel)
             else Response 503 "Service Unavailable" (Html []))
          0 None None None [].


(** A world where the table of [world_two_countries] is saved and the
    image cannot be written. *)
Definition world_no_kaleido : World :=
  mkWorld (fun _ _ => RequestFails (Exception "offline")) 0
          (csv_file (main world_two_countries).2)
          (Some (Exception "kaleido is not installed")) None [].

(** A listing page where an anchor occurs twice, once as a relative and
    once as an absolute address. *)
Definition page_repeated_anchor : Soup :=
  listing_page
    [ "/en/dfa/overseas-travel/advice/a-z-list-of-countries/france/";
      "https://www.ireland.ie/en/dfa/overseas-travel/advice/a-z-list-of-countries/france/";
      "/en/dfa/overseas-travel/advice/a-z-list-of-countries/iran/" ].


(** A world that serves a listing of two countries to the first request
    and refuses every later request. *)
Definition world_listing_only : World :=
  mkWorld (fun n _ =>
             if Nat.eqb n 0 then
               Response 200 "OK" (Html (listing_page [
                 "/en/dfa/overseas-travel/advice/a-z-list-of-countries/france/";
                 "/en/dfa/overseas-travel/advice/a-z-list-of-countries/iran/" ]))
             else Response 403 "Forbidden" (Html []))
          0 None None None [].

(** A world that serves a page with no country anchor. *)
Definition world_no_anchor : World :=
  serving (listing_page ["/en/dfa/about/"; "/en/contact/"]).

(** A world with no table file. *)
Definition world_no_table : World :=
  mkWorld (fun _ _ => RequestFails (Exception "offline")) 0 None None None [].

(** A world whose table file has a row without a level. *)
Definition world_bad_table : World :=
  mkWorld (fun _ _ => RequestFails (Exception "offline")) 0
          (Some [ mkRecord "Iran" iran_url (Some 4%Z) "Iran" (Some "Do Not Travel");
                  mkRecord "France" example_url None "France" None ])
          None None [].


(** A page with two containers and two titles. *)
Definition page_two_containers : Soup :=
  [ mkTag "div" ["accordion_travel"; "accordion"] None EmptyString;
    mkTag "h3" ["accordion__title"] None "High degree of caution" ].

(* ===================================================================== *)
(** ** Facts about the string methods *)
(* ===================================================================== *)

Section PyFacts.

Lemma append_nil_l (s : string) : EmptyString +:+ s = s.
Proof. reflexivity. Qed.

Lemma append_cons (c : ascii) (a b : string) : String c a +:+ b = String c (a +:+ b).
Proof. reflexivity. Qed.

Lemma append_nil_r (s : string) : s +:+ EmptyString = s.
Proof.
  induction s as [|c s IH]; [done |]. by rewrite append_cons, IH.
Qed.

Lemma append_assoc (a b c : string) : (a +:+ b) +:+ c = a +:+ b +:+ c.
Proof.
  induction a as [|x a IH]; [done |]. by rewrite !append_cons, IH.
Qed.

Lemma startswith_spec (p s : string) :
  Py.startswith s p = true <-> exists suf, s = p +:+ suf.
Proof.
  revert s. induction p as [|a p IH]; intros s; simpl.
  - split; [intros _; exists s; reflexivity | done].
  - destruct s as [|b s].
    + split; [done | intros [suf H]; discriminate].
    + destruct (Ascii.eqb a b) eqn:E.
      * apply Ascii.eqb_eq in E as ->. rewrite IH.
        split; intros [suf H]; exists suf.
        -- by rewrite append_cons, H.
        -- rewrite append_cons in H. by injection H.
      * split; [done | intros [suf H]]. rewrite append_cons in H.
        injection H as -> _. by rewrite Ascii.eqb_refl in E.
Qed.

Lemma str_in_spec (sub s : string) : Py.str_in sub s = true <-> Contains sub s.
Proof.
  unfold Contains. induction s as [|c s IH]; simpl.
  - rewrite orb_false_r, startswith_spec. split.
    + intros [suf H]. exists EmptyString, suf. by rewrite append_nil_l.
    + intros [[|x pre] [suf H]]; [by exists suf | by rewrite append_cons in H].
  - rewrite orb_true_iff, startswith_spec, IH. split.
    + intros [[suf H] | (pre & suf & H)].
      * exists EmptyString, suf. by rewrite append_nil_l.
      * exists (String c pre), suf. by rewrite append_cons, H.
    + intros ([|x pre] & suf & H).
      * left. by exists suf.
      * right. rewrite append_cons in H. injection H as -> H. by exists pre, suf.
Qed.

Lemma str_in_false (sub s : string) : Py.str_in sub s = false <-> ~ Contains sub s.
Proof. rewrite <- str_in_spec. by destruct (Py.str_in sub s). Qed.

Lemma lower_ascii_idemp (c : ascii) : Py.lower_ascii (Py.lower_ascii c) = Py.lower_ascii c.
Proof. destruct c as [[] [] [] [] [] [] [] []]; reflexivity. Qed.

Lemma lower_idemp (s : string) : Py.lower (Py.lower s) = Py.lower s.
Proof. induction s as [|c s IH]; simpl; [done | by rewrite lower_ascii_idemp, IH]. Qed.

Lemma lower_append (a b : string) : Py.lower (a +:+ b) = Py.lower a +:+ Py.lower b.
Proof.
  induction a as [|x a IH]; [done |]. rewrite append_cons. simpl.
  by rewrite IH, append_cons.
Qed.

Lemma lower_append_inv (s a b : string) :
  Py.lower s = a +:+ b -> exists a' b', s = a' +:+ b' /\ Py.lower a' = a /\ Py.lower b' = b.
Proof.
  revert s. induction a as [|x a IH]; intros s H.
  - exists EmptyString, s. by rewrite append_nil_l in H.
  - rewrite append_cons in H. destruct s as [|c s]; simpl in H; [discriminate |].
    injection H as Hc H. destruct (IH _ H) as (a' & b' & -> & Ha & Hb).
    exists (String c a'), b'. simpl. by rewrite Hc, Ha.
Qed.

(** The test of the programs, [m in s.lower()] for a lower-case [m], is
    containment in any mixture of cases. *)
Lemma str_in_lower (m s : string) :
  Py.lower m = m ->
  Py.str_in m (Py.lower s) = true <-> ContainsAnyCase m s.
Proof.
  intros Hm. rewrite str_in_spec. unfold ContainsAnyCase, Contains. rewrite Hm. split.
  - intros (pre & suf & H).
    apply lower_append_inv in H as (pre' & rest & -> & _ & H).
    apply lower_append_inv in H as (m' & suf' & -> & Hm' & _).
    exists m'. split; [done | by exists pre', suf'].
  - intros (m' & Hm' & pre & suf & ->).
    exists (Py.lower pre), (Py.lower suf). by rewrite !lower_append, Hm'.
Qed.

Lemma str_in_lower_false (m s : string) :
  Py.lower m = m ->
  Py.str_in m (Py.lower s) = false <-> ~ ContainsAnyCase m s.
Proof.
  intros Hm. rewrite <- (str_in_lower m s Hm). by destruct (Py.str_in m (Py.lower s)).
Qed.

(** What is contained as written is contained in any case. *)
Lemma Contains_any_case (m s : string) : Contains m s -> ContainsAnyCase m s.
Proof. intros H. by exists m. Qed.

(** *** [strip] keeps what has no blank at either end *)

Lemma is_space_lower (c : ascii) : Py.is_space (Py.lower_ascii c) = Py.is_space c.
Proof. destruct c as [[] [] [] [] [] [] [] []]; reflexivity. Qed.

Lemma starts_solid_lower (m : string) : starts_solid (Py.lower m) = starts_solid m.
Proof. destruct m as [|c m]; simpl; [done | by rewrite is_space_lower]. Qed.

Lemma ends_solid_lower (m : string) : ends_solid (Py.lower m) = ends_solid m.
Proof.
  induction m as [|c m IH]; [done |].
  destruct m as [|d m]; simpl in *; [by rewrite is_space_lower | done].
Qed.

Lemma lstrip_ws_split (s : string) : exists ws, s = ws +:+ Py.lstrip_ws s.
Proof.
  induction s as [|a s [ws IH]]; simpl.
  - by exists EmptyString.
  - destruct (Py.is_space a).
    + exists (String a ws). by rewrite append_cons, <- IH.
    + by exists EmptyString.
Qed.

Lemma rstrip_ws_split (s : string) : exists ws, s = Py.rstrip_ws s +:+ ws.
Proof.
  induction s as [|a s [ws IH]]; simpl.
  - by exists EmptyString.
  - destruct (Py.rstrip_ws s) as [|b r] eqn:E.
    + rewrite append_nil_l in IH. destruct (Py.is_space a).
      * by exists (String a s).
      * exists s. by rewrite append_cons, append_nil_l.
    + exists ws. by rewrite append_cons, <- IH.
Qed.

Lemma Contains_lstrip_ws (m s : string) :
  starts_solid m = true -> Contains m s -> Contains m (Py.lstrip_ws s).
Proof.
  intros Hm (pre & suf & ->). induction pre as [|c pre IH].
  - rewrite append_nil_l. destruct m as [|c0 m]; [done |].
    rewrite append_cons. simpl in *. destruct (Py.is_space c0); [done |].
    exists EmptyString, suf. by rewrite append_nil_l, append_cons.
  - rewrite append_cons. simpl. destruct (Py.is_space c); [done |].
    exists (String c pre), suf. by rewrite append_cons.
Qed.

Lemma rstrip_ws_cons (a : ascii) (s : string) :
  Py.rstrip_ws s <> EmptyString -> Py.rstrip_ws (String a s) = String a (Py.rstrip_ws s).
Proof. intros H. simpl. by destruct (Py.rstrip_ws s). Qed.

Lemma rstrip_ws_solid (m suf : string) :
  ends_solid m = true -> Py.rstrip_ws (m +:+ suf) = m +:+ Py.rstrip_ws suf.
Proof.
  induction m as [|c m IH]; [done |]. intros Hm. rewrite !append_cons.
  destruct m as [|d m].
  - rewrite !append_nil_l. simpl in *.
    destruct (Py.rstrip_ws suf); [by destruct (Py.is_space c) | done].
  - rewrite rstrip_ws_cons; rewrite IH by done; [done |]. by rewrite append_cons.
Qed.

Lemma Contains_nonempty (m s : string) :
  m <> EmptyString -> Contains m s -> s <> EmptyString.
Proof.
  intros Hm (pre & suf & ->) H. destruct pre as [|c pre]; [| by rewrite append_cons in H].
  rewrite append_nil_l in H. destruct m; [done | by rewrite append_cons in H].
Qed.

Lemma Contains_rstrip_ws (m s : string) :
  ends_solid m = true -> Contains m s -> Contains m (Py.rstrip_ws s).
Proof.
  intros Hm (pre & suf & ->). induction pre as [|c pre IH].
  - rewrite append_nil_l, rstrip_ws_solid by done.
    exists EmptyString, (Py.rstrip_ws suf). by rewrite append_nil_l.
  - rewrite append_cons, rstrip_ws_cons.
    + destruct IH as (pre' & suf' & ->). exists (String c pre'), suf'.
      by rewrite append_cons.
    + eapply Contains_nonempty; [| exact IH]. by destruct m.
Qed.

Lemma Contains_append (m pre s suf : string) :
  Contains m s -> Contains m (pre +:+ s +:+ suf).
Proof.
  intros (p & q & ->). exists (pre +:+ p), (q +:+ suf).
  by rewrite !append_assoc.
Qed.

(** A marker with no blank at either end is in [s.strip()] exactly when it
    is in [s]. *)
Lemma Contains_strip (m s : string) :
  starts_solid m = true -> ends_solid m = true ->
  Contains m (Py.strip s) <-> Contains m s.
Proof.
  intros Hs He. unfold Py.strip. split.
  - intros H. destruct (lstrip_ws_split s) as [l Hl].
    destruct (rstrip_ws_split (Py.lstrip_ws s)) as [r Hr].
    rewrite Hl, Hr. by apply Contains_append.
  - intros H. by apply Contains_rstrip_ws, Contains_lstrip_ws.
Qed.

Lemma ContainsAnyCase_strip (m s : string) :
  starts_solid m = true -> ends_solid m = true ->
  ContainsAnyCase m (Py.strip s) <-> ContainsAnyCase m s.
Proof.
  intros Hs He. unfold ContainsAnyCase.
  assert (forall m', Py.lower m' = Py.lower m ->
            starts_solid m' = true /\ ends_solid m' = true) as Hsolid.
  { intros m' Hm'. split.
    - by rewrite <- starts_solid_lower, Hm', starts_solid_lower.
    - by rewrite <- ends_solid_lower, Hm', ends_solid_lower. }
  split; intros (m' & Hm' & H); exists m'; (split; [done |]);
    destruct (Hsolid m' Hm') as [Hs' He']; by apply (Contains_strip m' s Hs' He').
Qed.

(** [s.count(c)] is one less than the number of fields of [s.split(c)]. *)
Lemma length_split (s : string) (sep : ascii) :
  length (Py.split s sep) = S (Py.count s sep).
Proof.
  induction s as [|a s IH]; simpl; [done |].
  destruct (Ascii.eqb a sep); simpl; [by rewrite IH |].
  destruct (Py.split s sep); simpl in *; [done | by rewrite IH].
Qed.

End PyFacts.

(* ===================================================================== *)
(** ** Runs of the scripts *)
(* ===================================================================== *)

Section Runs.

Lemma advance_advance (w : World) (n m : nat) (evs evs' : list Event) :
  advance (advance w n evs) m evs' = advance w (m + n) (evs ++ evs').
Proof. unfold advance. simpl. f_equal; [lia | by rewrite app_assoc]. Qed.

Lemma advance_0_nil (w : World) : advance w 0 [] = w.
Proof. destruct w. unfold advance. simpl. by rewrite app_nil_r. Qed.

Lemma bind_run {A B} (m : M A) (f : A -> M B) (w : World) :
  (m ≫= f) w =
  match m w with
  | (Return a, w') => f a w'
  | (Raise e, w') => (Raise e, w')
  end.
Proof. reflexivity. Qed.

Lemma ret_run {A} (a : A) (w : World) : (mret a : M A) w = (Return a, w).
Proof. reflexivity. Qed.

Lemma emit_run (ev : Event) (w : World) : emit ev w = (Return tt, advance w 0 [ev]).
Proof. reflexivity. Qed.

Lemma print_run (s : string) (w : World) :
  print s w = (Return tt, advance w 0 [Stdout (s +:+ Py.nl)]).
Proof. reflexivity. Qed.

Lemma print_all_run (lines : list string) (w : World) :
  print_all lines w = (Return tt, advance w 0 (map (fun l => Stdout (l +:+ Py.nl)) lines)).
Proof.
  revert w. induction lines as [|l lines IH]; intros w; simpl.
  - by rewrite advance_0_nil.
  - rewrite bind_run, print_run, IH, advance_advance. done.
Qed.

Lemma fetched_fails (u : string) (o : HttpOutcome) :
  fails o <-> exists e, fetched u o = inl e.
Proof.
  destruct o as [e | code reason body]; simpl.
  { split; [intros _; by eexists | done]. }
  destruct (Z.leb_spec 400 code), (Z.ltb_spec code 500),
           (Z.leb_spec 500 code), (Z.ltb_spec code 600); simpl;
    try (split; [intros _; by eexists | intros _; left; lia]).
  all: split; [intros [Hf | [e' ->]]; [lia | by exists e'] |].
  all: destruct body as [e | soup]; intros [e' Hf]; [right; by exists e | discriminate].
Qed.

Lemma fetched_serves (u : string) (o : HttpOutcome) (soup : Soup) :
  serves o soup <-> fetched u o = inr soup.
Proof.
  destruct o as [e | code reason body]; simpl; [done |].
  destruct (Z.leb_spec 400 code), (Z.ltb_spec code 500),
           (Z.leb_spec 500 code), (Z.ltb_spec code 600); simpl;
    try (split; [intros [Hf _]; lia | done]).
  all: destruct body as [e | soup'];
    (split; [intros [_ Hf]; congruence | intros Hf; split; [lia | congruence]]).
Qed.

(** The fetching lines, run in a world. *)
Lemma fetch_run {A} (u : string) (k : Soup -> A) (w : World) :
  (response ← requests_get u;
   raise_for_status u response;;
   soup ← BeautifulSoup response;
   mret (k soup)) w
  = (match fetched u (http w (requests_made w) u) with
     | inl e => Raise e
     | inr soup => Return (k soup)
     end, advance w 1 [HttpGet u]).
Proof.
  rewrite bind_run. unfold requests_get, fetched.
  destruct (http w (requests_made w) u) as [e | code reason body]; [done |].
  rewrite bind_run. unfold raise_for_status.
  destruct ((400 <=? code)%Z && (code <? 500)%Z); [done |].
  destruct ((500 <=? code)%Z && (code <? 600)%Z); [done |].
  by destruct body.
Qed.

Lemma get_advisory_level_run (u : string) (w : World) :
  get_advisory_level u w
  = (Return (level_of_outcome u (http w (requests_made w) u)),
     advance w 1 (HttpGet u :: error_log u (http w (requests_made w) u))).
Proof.
  unfold get_advisory_level, try_except, level_of_outcome, error_log.
  rewrite fetch_run.
  destruct (fetched u (http w (requests_made w) u)) as [e | soup]; [| done].
  rewrite bind_run, print_run, advance_advance. done.
Qed.

End Runs.

(* ===================================================================== *)
(** ** The advisory extractor *)
(* ===================================================================== *)

(** Settles a goal about each entry of a table that is written out. *)
Ltac each_entry H :=
  repeat (apply elem_of_cons in H as [H | H]; [by simplify_eq |]);
  by apply elem_of_nil in H.

Section Extractor.

Lemma class_level_first_match (s : string) : class_level s = first_match class_markers s.
Proof.
  unfold class_level. simpl.
  repeat match goal with |- context [Py.str_in ?m s] => destruct (Py.str_in m s) end; done.
Qed.

Lemma title_level_first_match (s : string) : title_level s = first_match title_markers s.
Proof.
  unfold title_level. simpl.
  repeat match goal with |- context [Py.str_in ?m s] => destruct (Py.str_in m s) end; done.
Qed.

(** The first marker that occurs decides: no earlier marker occurs. *)
Lemma first_match_Some (table : list (string * Z)) (s : string) (level : Z) :
  first_match table s = Some level <->
  exists i m, table !! i = Some (m, level) /\ Contains m s /\
    forall j m' level', j < i -> table !! j = Some (m', level') -> ~ Contains m' s.
Proof.
  induction table as [|[m0 l0] table IH]; simpl.
  - split; [done | by intros (i & m & ? & _)].
  - destruct (Py.str_in m0 s) eqn:E.
    + apply str_in_spec in E. split.
      * intros [= ->]. exists 0, m0. split_and!; [done | done | intros; lia].
      * intros (i & m & Hi & Hm & Hlt). destruct i as [|i]; [by simplify_eq/= |].
        exfalso. by apply (Hlt 0 m0 l0); [lia | |].
    + apply str_in_false in E. rewrite IH. split.
      * intros (i & m & Hi & Hm & Hlt). exists (S i), m. split_and!; [done | done |].
        intros [|j] m' l' Hj Hm'; simplify_eq/=; [done |].
        apply (Hlt j m' l'); [lia | done].
      * intros (i & m & Hi & Hm & Hlt). destruct i as [|i]; [by simplify_eq/= |].
        exists i, m. split_and!; [done | done |].
        intros j m' l' Hj Hm'. apply (Hlt (S j) m' l'); [lia | done].
Qed.

Lemma first_match_None (table : list (string * Z)) (s : string) :
  first_match table s = None <-> forall m level, (m, level) ∈ table -> ~ Contains m s.
Proof.
  induction table as [|[m0 l0] table IH]; simpl.
  - split; [intros _ m level H; by apply elem_of_nil in H | done].
  - destruct (Py.str_in m0 s) eqn:E.
    + apply str_in_spec in E. split; [done |]. intros H. exfalso.
      apply (H m0 l0); [left | done].
    + apply str_in_false in E. rewrite IH. split.
      * intros H m level [[= -> ->] | Hin]%elem_of_cons; eauto.
      * intros H m level Hin. apply (H m level). by right.
Qed.

(** The levels of a table are the only results. *)
Lemma first_match_range (table : list (string * Z)) (s : string) (level : Z) :
  first_match table s = Some level -> level ∈ table.*2.
Proof.
  induction table as [|[m0 l0] table IH]; simpl; [done |].
  destruct (Py.str_in m0 s); [intros [= ->]; left | right; auto].
Qed.

Lemma class_markers_lower (m : string) (level : Z) :
  (m, level) ∈ class_markers -> Py.lower m = m.
Proof. intros H. each_entry H. Qed.

Lemma title_markers_lower (m : string) (level : Z) :
  (m, level) ∈ title_markers -> Py.lower m = m.
Proof. intros H. each_entry H. Qed.

Lemma title_markers_solid (m : string) (level : Z) :
  (m, level) ∈ title_markers -> starts_solid m = true /\ ends_solid m = true.
Proof. intros H. each_entry H. Qed.

(** The test on the class string, in terms of the page. *)
Lemma class_test (m : string) (level : Z) (d : Tag) :
  (m, level) ∈ class_markers ->
  Contains m (Py.lower (class_string d)) <-> ContainsAnyCase m (class_string d).
Proof.
  intros Hm. rewrite <- str_in_spec. apply str_in_lower.
  by apply (class_markers_lower m level).
Qed.

(** The test on the title, in terms of the page. *)
Lemma title_test (m : string) (level : Z) (h : Tag) :
  (m, level) ∈ title_markers ->
  Contains m (Py.lower (Py.strip (tag_text h))) <-> ContainsAnyCase m (tag_text h).
Proof.
  intros Hm. rewrite <- str_in_spec.
  rewrite str_in_lower by (by apply (title_markers_lower m level)).
  destruct (title_markers_solid m level Hm). by apply ContainsAnyCase_strip.
Qed.

Lemma get_advisory_level_serves (u : string) (w : World) (soup : Soup) :
  serves (http w (requests_made w) u) soup ->
  (get_advisory_level u w).1 = Return (level_of_soup soup).
Proof.
  intros H. rewrite get_advisory_level_run. simpl. unfold level_of_outcome.
  by apply (fetched_serves u) in H as ->.
Qed.

Lemma get_advisory_level_fails (u : string) (w : World) :
  fails (http w (requests_made w) u) ->
  (get_advisory_level u w).1 = Return None.
Proof.
  intros H. rewrite get_advisory_level_run. simpl. unfold level_of_outcome.
  by apply (fetched_fails u) in H as [e ->].
Qed.

End Extractor.

Section ExtractorCascade.

Lemma primary_silent_iff (soup : Soup) :
  primary_silent soup <->
  match find soup "div" "accordion_travel" with
  | Some d => first_match class_markers (Py.lower (class_string d)) = None
  | None => True
  end.
Proof.
  unfold primary_silent. destruct (find soup "div" "accordion_travel") as [d|].
  - rewrite first_match_None. split.
    + intros H m level Hm. rewrite (class_test m level) by done. by apply (H d eq_refl m level).
    + intros H d' [= <-] m level Hm. rewrite <- (class_test m level) by done. by apply (H m level).
  - split; [done | by intros _ d H].
Qed.

Lemma title_silent_iff (soup : Soup) :
  title_silent soup <-> title_fallback soup = None.
Proof.
  unfold title_silent, title_fallback.
  destruct (find soup "h3" "accordion__title") as [h|].
  - cbv zeta. rewrite title_level_first_match, first_match_None. split.
    + intros H m level Hm. rewrite (title_test m level) by done. by apply (H h eq_refl m level).
    + intros H h' [= <-] m level Hm. rewrite <- (title_test m level) by done. by apply (H m level).
  - split; [done | by intros _ h H].
Qed.

Lemma level_of_soup_cascade (soup : Soup) :
  level_of_soup soup =
  match find soup "div" "accordion_travel" with
  | Some d =>
      match first_match class_markers (Py.lower (class_string d)) with
      | Some level => Some level
      | None => title_fallback soup
      end
  | None => title_fallback soup
  end.
Proof.
  unfold level_of_soup. destruct (find soup "div" "accordion_travel") as [d|]; [| done].
  cbv zeta. by rewrite class_level_first_match.
Qed.

Lemma level_of_soup_class (soup : Soup) (d : Tag) (level : Z) :
  find soup "div" "accordion_travel" = Some d ->
  first_match class_markers (Py.lower (class_string d)) = Some level ->
  level_of_soup soup = Some level.
Proof. intros Hd Hl. by rewrite level_of_soup_cascade, Hd, Hl. Qed.

Lemma level_of_soup_fallback (soup : Soup) :
  primary_silent soup -> level_of_soup soup = title_fallback soup.
Proof.
  rewrite primary_silent_iff, level_of_soup_cascade.
  destruct (find soup "div" "accordion_travel") as [d|]; [| done]. by intros ->.
Qed.

Lemma level_of_soup_primary_decides (soup : Soup) :
  ~ primary_silent soup ->
  exists d, find soup "div" "accordion_travel" = Some d /\
            level_of_soup soup = first_match class_markers (Py.lower (class_string d)) /\
            is_Some (level_of_soup soup).
Proof.
  rewrite primary_silent_iff, level_of_soup_cascade.
  destruct (find soup "div" "accordion_travel") as [d|]; [| done].
  destruct (first_match class_markers (Py.lower (class_string d))) as [level|] eqn:E;
    [| done].
  intros _. exists d. split_and!; [done | done | by eexists].
Qed.

Lemma title_fallback_cascade (soup : Soup) :
  title_fallback soup =
  match find soup "h3" "accordion__title" with
  | Some h => first_match title_markers (Py.lower (Py.strip (tag_text h)))
  | None => None
  end.
Proof.
  unfold title_fallback. destruct (find soup "h3" "accordion__title") as [h|]; [| done].
  cbv zeta. by rewrite title_level_first_match.
Qed.

(** A marker of level 4 that occurs in a string decides, whatever else
    occurs in it: it is the first of either table. *)
Lemma class_level_4 (s : string) :
  Contains "do-not-travel" s -> first_match class_markers s = Some 4%Z.
Proof. intros H%str_in_spec. simpl. by rewrite H. Qed.

Lemma title_level_4 (s : string) :
  Contains "do not travel" s -> first_match title_markers s = Some 4%Z.
Proof. intros H%str_in_spec. simpl. by rewrite H. Qed.

Lemma level_of_soup_class_4 (soup : Soup) (d : Tag) :
  find soup "div" "accordion_travel" = Some d ->
  ContainsAnyCase "do-not-travel" (class_string d) ->
  level_of_soup soup = Some 4%Z.
Proof.
  intros Hd H. apply (level_of_soup_class soup d); [done |].
  apply class_level_4. apply (class_test _ 4%Z); [by left | done].
Qed.

Lemma level_of_soup_title_4 (soup : Soup) (h : Tag) :
  primary_silent soup ->
  find soup "h3" "accordion__title" = Some h ->
  ContainsAnyCase "do not travel" (tag_text h) ->
  level_of_soup soup = Some 4%Z.
Proof.
  intros Hs Hh H. rewrite level_of_soup_fallback, title_fallback_cascade, Hh by done.
  apply title_level_4. apply (title_test _ 4%Z); [by left | done].
Qed.

End ExtractorCascade.

(** Decides [ContainsAnyCase m s] for a lower-case [m] by running the test. *)
Ltac any_case := apply str_in_lower; [reflexivity | vm_compute; reflexivity].

(** Decides [primary_silent] for a page that is written out. *)
Ltac silent := apply primary_silent_iff; vm_compute; done.

(** C1, as amended.  Of a page that is served: when the class string of
    the container contains do-not-travel (with hyphens) in any mixture of
    cases, the level is 4; when the text of the title contains do not
    travel in any mixture of cases, and the page has no container or the
    class string of the container contains no class marker, the level
    is 4. *)
Theorem C1_do_not_travel_gives_4 (u : string) (w : World) (soup : Soup) :
  serves (http w (requests_made w) u) soup ->
  (exists d, find soup "div" "accordion_travel" = Some d /\
             ContainsAnyCase "do-not-travel" (class_string d))
  \/ (primary_silent soup /\
      exists h, find soup "h3" "accordion__title" = Some h /\
                ContainsAnyCase "do not travel" (tag_text h)) ->
  (get_advisory_level u w).1 = Return (Some 4%Z).
Proof.
  intros Hserves H. rewrite (get_advisory_level_serves u w soup Hserves). f_equal.
  destruct H as [(d & Hd & H) | (Hs & h & Hh & H)].
  - by apply (level_of_soup_class_4 soup d).
  - by apply (level_of_soup_title_4 soup h).
Qed.

Lemma C1_do_not_travel_gives_4_witness :
  (get_advisory_level example_url (serving page_do_not_travel)).1 = Return (Some 4%Z)
  /\ (get_advisory_level example_url (serving page_open_container)).1 = Return (Some 4%Z).
Proof.
  split.
  - apply (C1_do_not_travel_gives_4 example_url (serving page_do_not_travel)
             page_do_not_travel).
    + split; [simpl; lia | reflexivity].
    + left. eexists. split; [reflexivity | any_case].
  - apply (C1_do_not_travel_gives_4 example_url (serving page_open_container)
             page_open_container).
    + split; [simpl; lia | reflexivity].
    + right. split; [silent |]. eexists. split; [reflexivity | any_case].
Defined.

(** C1 as stated fails: a class string that contains do not travel (with
    spaces) gives no level, and a title that contains it under a container
    of level 1 gives level 1. *)
Lemma C1_counterexample :
  (exists d, find page_spaced_class "div" "accordion_travel" = Some d /\
             ContainsAnyCase "do not travel" (class_string d))
  /\ (get_advisory_level example_url (serving page_spaced_class)).1 = Return None
  /\ (exists h, find page_level_1_title_4 "h3" "accordion__title" = Some h /\
                ContainsAnyCase "do not travel" (tag_text h))
  /\ (get_advisory_level example_url (serving page_level_1_title_4)).1
     = Return (Some 1%Z).
Proof.
  split_and!.
  - eexists. split; [reflexivity | any_case].
  - vm_compute. reflexivity.
  - eexists. split; [reflexivity | any_case].
  - vm_compute. reflexivity.
Qed.

(** C2, as amended.  Of a page that is served: when a class marker occurs
    in the class string of the container, the first such marker gives the
    level and the title is not looked at; when the page has no container,
    or no class marker occurs in the class string of its container, the
    level is what the title gives (the level of the first title marker in
    its text, none without a title or a marker); and the level is absent
    exactly when neither the class string nor the title has a marker. *)
Theorem C2_title_when_class_is_silent (u : string) (w : World) (soup : Soup) :
  serves (http w (requests_made w) u) soup ->
  (forall d level,
      find soup "div" "accordion_travel" = Some d ->
      first_match class_markers (Py.lower (class_string d)) = Some level ->
      (get_advisory_level u w).1 = Return (Some level))
  /\ (primary_silent soup ->
      (get_advisory_level u w).1
      = Return (match find soup "h3" "accordion__title" with
                | Some h => first_match title_markers (Py.lower (Py.strip (tag_text h)))
                | None => None
                end))
  /\ ((get_advisory_level u w).1 = Return None <->
      primary_silent soup /\ title_silent soup).
Proof.
  intros Hserves. rewrite (get_advisory_level_serves u w soup Hserves). split_and!.
  - intros d level Hd Hl. f_equal. by apply (level_of_soup_class soup d).
  - intros Hs. f_equal. by rewrite level_of_soup_fallback, title_fallback_cascade.
  - rewrite title_silent_iff, primary_silent_iff, level_of_soup_cascade.
    destruct (find soup "div" "accordion_travel") as [d|].
    + destruct (first_match class_markers (Py.lower (class_string d))) as [level|].
      * split; [done | by intros [? _]].
      * split; [by intros [= ->] | by intros [_ ->]].
    + split; [by intros [= ->] | by intros [_ ->]].
Qed.

Lemma C2_title_when_class_is_silent_witness :
  (get_advisory_level example_url (serving page_open_container)).1 = Return (Some 4%Z)
  /\ (get_advisory_level example_url (serving page_level_1_title_4)).1
     = Return (Some 1%Z).
Proof.
  assert (forall soup, serves (http (serving soup) (requests_made (serving soup))
                                    example_url) soup) as Hserves.
  { intros soup. split; [simpl; lia | reflexivity]. }
  split.
  - destruct (C2_title_when_class_is_silent example_url (serving page_open_container)
                page_open_container (Hserves _)) as (_ & H & _).
    rewrite H; [reflexivity | silent].
  - destruct (C2_title_when_class_is_silent example_url (serving page_level_1_title_4)
                page_level_1_title_4 (Hserves _)) as (H & _ & _).
    eapply H; reflexivity.
Defined.

(** C2 as stated fails: on this page the container is found and its class
    string has no marker, and the level is the level 4 of the title. *)
Lemma C2_counterexample :
  exists d,
    find page_open_container "div" "accordion_travel" = Some d
    /\ class_level (Py.lower (class_string d)) = None
    /\ (get_advisory_level example_url (serving page_open_container)).1
       = Return (Some 4%Z).
Proof. eexists. split_and!; [reflexivity | vm_compute; reflexivity..]. Qed.

Lemma first_match_wins (table : list (string * Z)) (s : string) (i : nat)
    (m : string) (level : Z) :
  table !! i = Some (m, level) ->
  Contains m s ->
  (forall j m' level', j < i -> table !! j = Some (m', level') -> ~ Contains m' s) ->
  first_match table s = Some level.
Proof. intros Hi Hm Hlt. apply first_match_Some. by exists i, m. Qed.

(** C3, as amended.  Of a page that is served: when the class string of
    the container contains a class marker of level 2 and the marker
    do-not-travel, in any mixture of cases, the level is 4; when the title
    is looked at (no container, or no class marker in its class string)
    and its text contains high degree of caution and do not travel, the
    level is 4; in either cascade a marker that occurs while no marker
    tested before it occurs gives the level. *)
Theorem C3_first_marker_wins (u : string) (w : World) (soup : Soup) :
  serves (http w (requests_made w) u) soup ->
  (forall d,
      find soup "div" "accordion_travel" = Some d ->
      ContainsAnyCase "high-degree-of-caution" (class_string d)
      \/ ContainsAnyCase "high-degree-caution" (class_string d) ->
      ContainsAnyCase "do-not-travel" (class_string d) ->
      (get_advisory_level u w).1 = Return (Some 4%Z))
  /\ (forall h,
      primary_silent soup ->
      find soup "h3" "accordion__title" = Some h ->
      ContainsAnyCase "high degree of caution" (tag_text h) ->
      ContainsAnyCase "do not travel" (tag_text h) ->
      (get_advisory_level u w).1 = Return (Some 4%Z))
  /\ (forall d i m level,
      find soup "div" "accordion_travel" = Some d ->
      class_markers !! i = Some (m, level) ->
      ContainsAnyCase m (class_string d) ->
      (forall j m' level', j < i -> class_markers !! j = Some (m', level') ->
                           ~ ContainsAnyCase m' (class_string d)) ->
      (get_advisory_level u w).1 = Return (Some level))
  /\ (forall h i m level,
      primary_silent soup ->
      find soup "h3" "accordion__title" = Some h ->
      title_markers !! i = Some (m, level) ->
      ContainsAnyCase m (tag_text h) ->
      (forall j m' level', j < i -> title_markers !! j = Some (m', level') ->
                           ~ ContainsAnyCase m' (tag_text h)) ->
      (get_advisory_level u w).1 = Return (Some level)).
Proof.
  intros Hserves. rewrite (get_advisory_level_serves u w soup Hserves). split_and!.
  - intros d Hd _ H4. f_equal. by apply (level_of_soup_class_4 soup d).
  - intros h Hs Hh _ H4. f_equal. by apply (level_of_soup_title_4 soup h).
  - intros d i m level Hd Hi Hm Hlt. f_equal. apply (level_of_soup_class soup d level Hd).
    apply (first_match_wins _ _ i m); [done | |].
    + apply (class_test m level); [by eapply list_elem_of_lookup_2 | done].
    + intros j m' level' Hj Hj'. rewrite (class_test m' level').
      * by apply (Hlt j m' level').
      * by eapply list_elem_of_lookup_2.
  - intros h i m level Hs Hh Hi Hm Hlt. f_equal.
    rewrite level_of_soup_fallback, title_fallback_cascade, Hh by done.
    apply (first_match_wins _ _ i m); [done | |].
    + apply (title_test m level); [by eapply list_elem_of_lookup_2 | done].
    + intros j m' level' Hj Hj'. rewrite (title_test m' level').
      * by apply (Hlt j m' level').
      * by eapply list_elem_of_lookup_2.
Qed.

Lemma C3_first_marker_wins_witness :
  (get_advisory_level example_url (serving page_class_2_and_4)).1 = Return (Some 4%Z).
Proof.
  destruct (C3_first_marker_wins example_url (serving page_class_2_and_4)
              page_class_2_and_4) as (H & _).
  - split; [simpl; lia | reflexivity].
  - eapply H; [reflexivity | left; any_case | any_case].
Defined.

(** C3 as stated fails: a title with the texts of levels 2 and 4 under a
    container of level 1 gives level 1, and a class string that contains
    both texts (with spaces) gives no level. *)
Lemma C3_counterexample :
  (exists h, find page_level_1_title_2_and_4 "h3" "accordion__title" = Some h /\
             ContainsAnyCase "high degree of caution" (tag_text h) /\
             ContainsAnyCase "do not travel" (tag_text h))
  /\ (get_advisory_level example_url (serving page_level_1_title_2_and_4)).1
     = Return (Some 1%Z)
  /\ (exists d, find page_spaced_2_and_4 "div" "accordion_travel" = Some d /\
                ContainsAnyCase "high degree of caution" (class_string d) /\
                ContainsAnyCase "do not travel" (class_string d))
  /\ (get_advisory_level example_url (serving page_spaced_2_and_4)).1 = Return None.
Proof.
  split_and!.
  - eexists. split_and!; [reflexivity | any_case..].
  - vm_compute. reflexivity.
  - eexists. split_and!; [reflexivity | any_case..].
  - vm_compute. reflexivity.
Qed.

(* ===================================================================== *)
(** ** The listing parser *)
(* ===================================================================== *)

Section Listing.

Lemma collect_links_filter (hrefs : list string) (country_links : list CountryLink) :
  collect_links hrefs country_links
  = (country_links ++ map country_link (List.filter kept hrefs))%list.
Proof.
  revert country_links. induction hrefs as [|href rest IH]; intros acc; simpl.
  - by rewrite app_nil_r.
  - unfold kept at 1. destruct (matches_pattern href), (is_country_page href); simpl;
      rewrite IH; [by rewrite <- app_assoc | done..].
Qed.

(** An anchor that fails a test leaves the list as it would be without it. *)
Lemma collect_links_skip (before after : list string) (href : string)
    (country_links : list CountryLink) :
  kept href = false ->
  collect_links (before ++ href :: after) country_links
  = collect_links (before ++ after) country_links.
Proof.
  intros H. rewrite !collect_links_filter, !List.filter_app. simpl. by rewrite H.
Qed.

Lemma exclusion_keywords_lower (kw : string) :
  kw ∈ exclusion_keywords -> Py.lower kw = kw.
Proof. intros H. each_entry H. Qed.

Lemma is_country_page_iff (href : string) :
  is_country_page href = true <->
  forall kw, kw ∈ exclusion_keywords -> ~ ContainsAnyCase kw href.
Proof.
  unfold is_country_page. rewrite negb_true_iff, <- not_true_iff_false, existsb_exists.
  split.
  - intros H kw Hkw Hc. apply H. exists kw. split; [by apply list_elem_of_In |].
    apply str_in_lower; [by apply exclusion_keywords_lower | done].
  - intros H (kw & Hkw%list_elem_of_In & Hc). apply (H kw Hkw).
    apply str_in_lower in Hc; [done | by apply exclusion_keywords_lower].
Qed.

Lemma matches_pattern_iff (href : string) :
  matches_pattern href = true <->
  Contains "/advice/" href /\ 5 <= Py.count href "/"%char.
Proof.
  unfold matches_pattern. by rewrite andb_true_iff, str_in_spec, Nat.leb_le.
Qed.

Lemma kept_iff (href : string) :
  kept href = true <->
  Contains "/advice/" href /\ 5 <= Py.count href "/"%char /\
  forall kw, kw ∈ exclusion_keywords -> ~ ContainsAnyCase kw href.
Proof.
  unfold kept. rewrite andb_true_iff, matches_pattern_iff, is_country_page_iff.
  tauto.
Qed.

Lemma kept_false_few_slashes (href : string) :
  Py.count href "/"%char < 5 -> kept href = false.
Proof.
  intros H. apply not_true_iff_false. rewrite kept_iff. intros (_ & ? & _). lia.
Qed.

Lemma kept_false_keyword (href kw : string) :
  kw ∈ exclusion_keywords -> ContainsAnyCase kw href -> kept href = false.
Proof.
  intros Hkw H. apply not_true_iff_false. rewrite kept_iff. intros (_ & _ & Hno).
  by apply (Hno kw).
Qed.

Lemma elem_of_collect_links (hrefs : list string) (link : CountryLink) :
  link ∈ collect_links hrefs [] <->
  exists href, href ∈ hrefs /\ kept href = true /\ link = country_link href.
Proof.
  rewrite collect_links_filter, app_nil_l, list_elem_of_fmap. split.
  - intros (href & -> & H%list_elem_of_In%List.filter_In).
    destruct H as [H Hk]. exists href. by rewrite list_elem_of_In.
  - intros (href & H & Hk & ->). exists href. split; [done |].
    apply list_elem_of_In, List.filter_In. by rewrite <- list_elem_of_In.
Qed.

Lemma pd_DataFrame_rows (rows : list CountryLink) : (pd_DataFrame rows).*2 = rows.
Proof.
  unfold pd_DataFrame. rewrite fmap_imap. simpl.
  rewrite (imap_ext _ (fun _ r => r)) by done.
  induction rows as [|r rows IH]; [done |]. simpl. f_equal.
  by rewrite (imap_ext _ (fun _ r => r)).
Qed.

Lemma elem_of_drop_duplicates_from (seen : list CountryLink) (df : DataFrame)
    (r : CountryLink) :
  r ∈ (drop_duplicates_from seen df).*2 <-> r ∈ df.*2 /\ r ∉ seen.
Proof.
  revert seen. induction df as [|[i r0] df IH]; intros seen; simpl.
  - set_solver.
  - case_bool_decide as Hseen; simpl; rewrite ?elem_of_cons, IH.
    + set_solver.
    + destruct (decide (r = r0)) as [-> |]; set_solver.
Qed.

Lemma elem_of_drop_duplicates (df : DataFrame) (r : CountryLink) :
  r ∈ (drop_duplicates df).*2 <-> r ∈ df.*2.
Proof. unfold drop_duplicates. rewrite elem_of_drop_duplicates_from. set_solver. Qed.

(** No row of the result repeats another. *)
Lemma NoDup_drop_duplicates_from (seen : list CountryLink) (df : DataFrame) :
  NoDup (drop_duplicates_from seen df).*2.
Proof.
  revert seen. induction df as [|[i r0] df IH]; intros seen; simpl.
  - constructor.
  - case_bool_decide; simpl; [done |]. constructor; [| done].
    rewrite elem_of_drop_duplicates_from. set_solver.
Qed.

Lemma elem_of_listing_of_soup (soup : Soup) (link : CountryLink) :
  link ∈ (listing_of_soup soup).*2 <->
  exists href, href ∈ find_all_href soup "a" /\ kept href = true /\
               link = country_link href.
Proof.
  unfold listing_of_soup.
  by rewrite elem_of_drop_duplicates, pd_DataFrame_rows, elem_of_collect_links.
Qed.

Lemma find_all_href_listing_page (hrefs : list string) :
  find_all_href (listing_page hrefs) "a" = hrefs.
Proof. induction hrefs as [|href hrefs IH]; [done |]. simpl. by f_equal. Qed.

Lemma get_country_urls_run (w : World) :
  get_country_urls w
  = (Return (listing_of_outcome (http w (requests_made w) base_url)),
     advance w 1 (HttpGet base_url :: fallback_log (http w (requests_made w) base_url))).
Proof.
  unfold get_country_urls, try_except, listing_of_outcome, fallback_log.
  cbv zeta. rewrite (fetch_run base_url (fun soup => Some (listing_of_soup soup))).
  destruct (fetched base_url (http w (requests_made w) base_url)) as [e | soup]; [| done].
  rewrite bind_run, print_all_run, advance_advance. done.
Qed.

Lemma get_country_urls_serves (w : World) (soup : Soup) :
  serves (http w (requests_made w) base_url) soup ->
  (get_country_urls w).1 = Return (Some (listing_of_soup soup)).
Proof.
  intros H. rewrite get_country_urls_run. simpl. unfold listing_of_outcome.
  by apply (fetched_serves base_url) in H as ->.
Qed.

End Listing.

(** C4, as amended.  Of a listing page that is served: a link is in the
    result exactly when it is the link of an anchor whose href contains
    /advice/, has at least five slash characters, and contains none of
    covid, index, search, about in any mixture of cases; and an anchor
    whose href has fewer than five slash characters, or contains one of
    these keywords in any mixture of cases, adds nothing to the list. *)
Theorem C4_kept_anchors :
  (forall (w : World) (soup : Soup),
      serves (http w (requests_made w) base_url) soup ->
      exists df,
        (get_country_urls w).1 = Return (Some df) /\
        forall link,
          link ∈ df.*2 <->
          exists href,
            href ∈ find_all_href soup "a" /\
            Contains "/advice/" href /\
            5 <= Py.count href "/"%char /\
            (forall kw, kw ∈ exclusion_keywords -> ~ ContainsAnyCase kw href) /\
            link = country_link href)
  /\ (forall (before after : list string) (href : string) (links : list CountryLink),
      Py.count href "/"%char < 5
      \/ (exists kw, kw ∈ exclusion_keywords /\ ContainsAnyCase kw href) ->
      collect_links (before ++ href :: after) links
      = collect_links (before ++ after) links).
Proof.
  split.
  - intros w soup Hserves. exists (listing_of_soup soup).
    split; [by apply get_country_urls_serves |].
    intros link. rewrite elem_of_listing_of_soup.
    split; intros (href & Hin & H); exists href; (split; [done |]).
    + destruct H as [H ->]. apply kept_iff in H. tauto.
    + destruct H as (H1 & H2 & H3 & ->). split; [| done]. by apply kept_iff.
  - intros before after href links H. apply collect_links_skip.
    destruct H as [H | (kw & Hkw & H)].
    + by apply kept_false_few_slashes.
    + by apply (kept_false_keyword href kw).
Qed.

Lemma C4_kept_anchors_witness :
  (exists df,
      (get_country_urls (serving (listing_page [href_of_comment; href_covid]))).1
      = Return (Some df)
      /\ mkLink "France" "https://www.ireland.ie/dfa/overseas-travel/advice/france/"
         ∈ df.*2)
  /\ collect_links ([href_of_comment] ++ href_covid :: []) []
     = collect_links ([href_of_comment] ++ []) [].
Proof.
  destruct C4_kept_anchors as [Hkeep Hskip]. split.
  - destruct (Hkeep (serving (listing_page [href_of_comment; href_covid]))
                (listing_page [href_of_comment; href_covid])) as (df & Hdf & Hin).
    + split; [simpl; lia | reflexivity].
    + exists df. split; [exact Hdf |]. apply Hin. exists href_of_comment.
      split_and!.
      * rewrite find_all_href_listing_page. by left.
      * apply str_in_spec. vm_compute. reflexivity.
      * vm_compute. lia.
      * intros kw Hkw. apply str_in_lower_false; [by apply exclusion_keywords_lower |].
        unfold exclusion_keywords in Hkw.
        repeat (apply elem_of_cons in Hkw as [-> | Hkw]; [vm_compute; reflexivity |]).
        by apply elem_of_nil in Hkw.
      * vm_compute. reflexivity.
  - apply Hskip. right. exists "covid". split; [by left | any_case].
Defined.

(** C4 as stated fails.  The href that the comment of line 38 gives as the
    pattern of a country page has four path segments, and it is kept.  An
    href that contains /advice/, has five path segments and contains no
    keyword is left out, for it has four slashes. *)
Lemma C4_counterexample :
  path_segments href_of_comment = ["dfa"; "overseas-travel"; "advice"; "france"]
  /\ length (path_segments href_of_comment) < 5
  /\ (get_country_urls (serving (listing_page [href_of_comment]))).1
     = Return (Some [(0, mkLink "France"
                           "https://www.ireland.ie/dfa/overseas-travel/advice/france/")])
  /\ path_segments href_relative = ["en"; "dfa"; "overseas-travel"; "advice"; "france"]
  /\ Py.str_in "/advice/" href_relative = true
  /\ is_country_page href_relative = true
  /\ (get_country_urls (serving (listing_page [href_relative]))).1 = Return (Some []).
Proof.
  split_and!; [reflexivity | simpl; lia | vm_compute; reflexivity | reflexivity
              | reflexivity | reflexivity | vm_compute; reflexivity].
Qed.

(** C10.  The keyword test of line 41 reads the href in lower case: two
    hrefs that differ only in the case of their letters pass or fail it
    together, and an anchor whose href contains covid, index, search or
    about in any mixture of cases fails it and adds nothing to the list. *)
Theorem C10_keyword_in_any_case :
  (forall href href' : string,
      Py.lower href' = Py.lower href -> is_country_page href' = is_country_page href)
  /\ (forall (href kw : string),
      kw ∈ exclusion_keywords ->
      ContainsAnyCase kw href ->
      is_country_page href = false
      /\ forall (before after : list string) (links : list CountryLink),
           collect_links (before ++ href :: after) links
           = collect_links (before ++ after) links).
Proof.
  split.
  - intros href href' H. unfold is_country_page. by rewrite H.
  - intros href kw Hkw H. split.
    + apply not_true_iff_false. rewrite is_country_page_iff. intros Hno.
      by apply (Hno kw).
    + intros before after links. apply collect_links_skip.
      by apply (kept_false_keyword href kw).
Qed.

Lemma C10_keyword_in_any_case_witness :
  is_country_page href_covid = false
  /\ collect_links ([href_of_comment] ++ href_covid :: [href_of_comment]) []
     = collect_links ([href_of_comment] ++ [href_of_comment]) [].
Proof.
  destruct C10_keyword_in_any_case as [_ H].
  destruct (H href_covid "covid") as [Hpage Hskip].
  - by left.
  - any_case.
  - split; [exact Hpage | apply Hskip].
Defined.

(* ===================================================================== *)
(** ** The name normalizer *)
(* ===================================================================== *)

Section Normalizer.

(** Every name the table maps to is mapped to itself or is not an alias. *)
Lemma mapping_values_fixed :
  map_Forall (fun _ canonical => standardize_country_name canonical = canonical) mapping.
Proof. apply (bool_decide_unpack _). vm_compute. exact I. Qed.

Lemma standardize_absent (n : string) :
  mapping !! n = None -> standardize_country_name n = n.
Proof. intros H. unfold standardize_country_name. by rewrite H. Qed.

Lemma standardize_alias (alias canonical : string) :
  mapping !! alias = Some canonical -> standardize_country_name alias = canonical.
Proof. intros H. unfold standardize_country_name. by rewrite H. Qed.

End Normalizer.

(** C6.  Normalizing twice is normalizing once; a name the table maps to
    is returned unchanged, and so is a name that is not in the table. *)
Theorem C6_standardize_idempotent :
  (forall n : string,
      standardize_country_name (standardize_country_name n) = standardize_country_name n)
  /\ (forall alias canonical : string,
      mapping !! alias = Some canonical -> standardize_country_name canonical = canonical)
  /\ (forall n : string, mapping !! n = None -> standardize_country_name n = n).
Proof.
  split_and!.
  - intros n. destruct (mapping !! n) as [canonical|] eqn:E.
    + rewrite (standardize_alias n canonical E).
      by apply (mapping_values_fixed n canonical).
    + by rewrite !(standardize_absent n E).
  - intros alias canonical H. by apply (mapping_values_fixed alias canonical).
  - apply standardize_absent.
Qed.

Lemma C6_standardize_idempotent_witness :
  standardize_country_name "United Arab Emirates" = "United Arab Emirates"
  /\ standardize_country_name "Ireland" = "Ireland".
Proof.
  destruct C6_standardize_idempotent as (_ & Hcanonical & Habsent). split.
  - apply (Hcanonical "Uae"). vm_compute. reflexivity.
  - apply Habsent. vm_compute. reflexivity.
Defined.

(* ===================================================================== *)
(** ** The scraping loop and the dataset assembler *)
(* ===================================================================== *)

Section Scraper.

Lemma print_end_run (s e : string) (w : World) :
  print_end s e w = (Return tt, advance w 0 [Stdout (s +:+ e)]).
Proof. reflexivity. Qed.

Lemma sleep_run (n : nat) (w : World) : sleep n w = (Return tt, advance w 0 [Sleep n]).
Proof. reflexivity. Qed.

Lemma to_csv_run (rows : list AdvisoryRecord) (path : string) (w : World) :
  to_csv rows path w = (Return tt, advance (with_csv w rows) 0 [ToCsv path rows]).
Proof. reflexivity. Qed.

Lemma levels_from_advance (w : World) (n k : nat) (evs : list Event) (rows : DataFrame) :
  levels_from (advance w n evs) k rows = levels_from w (k + n) rows.
Proof.
  revert k. induction rows as [|[idx row] rest IH]; intros k; simpl; [done |].
  by rewrite Nat.add_assoc, IH.
Qed.

Lemma length_levels_from (w : World) (k : nat) (rows : DataFrame) :
  length (levels_from w k rows) = length rows.
Proof. revert k. induction rows as [|[idx row] rest IH]; intros k; simpl; [done | by rewrite IH]. Qed.

Lemma levels_from_lookup (w : World) (k i idx : nat) (rows : DataFrame) (row : CountryLink) :
  rows !! i = Some (idx, row) ->
  levels_from w k rows !! i
  = Some (level_of_outcome (url row) (http w (i + k + requests_made w) (url row))).
Proof.
  revert k i. induction rows as [|[idx' row'] rest IH]; intros k i H; [done |].
  destruct i as [|i]; simpl in *.
  - by simplify_eq.
  - rewrite (IH (S k) i H). by rewrite Nat.add_succ_r.
Qed.

Lemma requests_of_app (evs evs' : list Event) :
  requests_of (evs ++ evs') = (requests_of evs ++ requests_of evs')%list.
Proof. apply omap_app. Qed.

Lemma tables_of_app (evs evs' : list Event) :
  tables_of (evs ++ evs') = (tables_of evs ++ tables_of evs')%list.
Proof. apply omap_app. Qed.

Lemma requests_of_error_log (u : string) (o : HttpOutcome) : requests_of (error_log u o) = [].
Proof. unfold error_log. by destruct (fetched u o). Qed.

Lemma tables_of_error_log (u : string) (o : HttpOutcome) : tables_of (error_log u o) = [].
Proof. unfold error_log. by destruct (fetched u o). Qed.

(** The loop ends, with one level for each row, after one request for
    each row and no other. *)
Lemma scrape_levels_run (total : nat) (rows : DataFrame) (acc : list (option Z))
    (w : World) :
  exists evs,
    scrape_levels total rows acc w
    = (Return (acc ++ levels_from w 0 rows)%list, advance w (length rows) evs)
    /\ requests_of evs = map (fun r => url r.2) rows
    /\ tables_of evs = [].
Proof.
  revert acc w. induction rows as [|[idx row] rest IH]; intros acc w.
  - exists []. simpl. by rewrite app_nil_r, advance_0_nil.
  - cbn [scrape_levels].
    rewrite bind_run, print_end_run, bind_run, get_advisory_level_run.
    set (level := level_of_outcome _ _).
    set (evs1 := HttpGet _ :: _).
    assert (exists line,
      (if truthy level
       then print ("Level " +:+ from_option Py.str_Z "None" level)
       else print "Unable to determine") = print line) as [line ->].
    { destruct (truthy level); by eexists. }
    rewrite bind_run, print_run, bind_run, sleep_run, !advance_advance.
    cbv beta iota.
    match goal with
    | |- context [scrape_levels total rest ?a (advance w ?n ?evs0)] =>
        destruct (IH a (advance w n evs0)) as (evs & -> & Hreq & Htab);
        exists (app evs0 evs)
    end.
    split_and!.
    + rewrite advance_advance, levels_from_advance, <- app_assoc. simpl.
      rewrite Nat.add_1_r. reflexivity.
    + rewrite !requests_of_app, Hreq. subst evs1. simpl.
      by rewrite requests_of_error_log.
    + rewrite !tables_of_app, Htab. subst evs1. simpl.
      by rewrite tables_of_error_log.
Qed.

End Scraper.

(** C7.  When the request for a country page fails (the request raises,
    the status is an error status, or the body cannot be parsed),
    [get_advisory_level] returns the absent level and raises nothing,
    after it has printed the error; and the loop over the countries ends
    with one level for each country, having requested the page of each
    country in turn: absent for a country whose request fails, the level
    of its page for a country whose page is served. *)
Theorem C7_failed_page_gives_absent_level :
  (forall (u : string) (w : World),
      fails (http w (requests_made w) u) ->
      exists e,
        get_advisory_level u w
        = (Return None,
           advance w 1 [HttpGet u; Stdout ("  Error: " +:+ str_exn e +:+ Py.nl)]))
  /\ (forall (total : nat) (rows : DataFrame) (w : World),
      exists levels evs,
        scrape_levels total rows [] w = (Return levels, advance w (length rows) evs)
        /\ length levels = length rows
        /\ requests_of evs = map (fun r => url r.2) rows
        /\ forall i idx row,
             rows !! i = Some (idx, row) ->
             (fails (http w (i + requests_made w) (url row)) ->
              levels !! i = Some None)
             /\ (forall soup,
                    serves (http w (i + requests_made w) (url row)) soup ->
                    levels !! i = Some (level_of_soup soup))).
Proof.
  split.
  - intros u w H. rewrite get_advisory_level_run. unfold level_of_outcome, error_log.
    apply (fetched_fails u) in H as [e ->]. by exists e.
  - intros total rows w.
    destruct (scrape_levels_run total rows [] w) as (evs & Hrun & Hreq & _).
    exists (levels_from w 0 rows), evs. split_and!; [done | | done |].
    + apply length_levels_from.
    + intros i idx row Hi. rewrite (levels_from_lookup w 0 i idx rows row Hi).
      rewrite Nat.add_0_r. unfold level_of_outcome. split.
      * by intros [e ->]%(fetched_fails (url row)).
      * by intros soup ->%(fetched_serves (url row)).
Qed.

Lemma C7_failed_page_gives_absent_level_witness :
  (exists e,
      get_advisory_level example_url world_first_fails
      = (Return None,
         advance world_first_fails 1
           [HttpGet example_url; Stdout ("  Error: " +:+ str_exn e +:+ Py.nl)]))
  /\ (exists levels evs,
         scrape_levels 2 two_countries [] world_first_fails
         = (Return levels, advance world_first_fails 2 evs)
         /\ levels !! 0 = Some None
         /\ levels !! 1 = Some (Some 4%Z)
         /\ requests_of evs = map (fun r => url r.2) two_countries).
Proof.
  destruct C7_failed_page_gives_absent_level as [Hone Hloop]. split.
  - apply Hone. exact I.
  - destruct (Hloop 2 two_countries world_first_fails)
      as (levels & evs & Hrun & _ & Hreq & Hlevels).
    exists levels, evs. split_and!; [exact Hrun | | | exact Hreq].
    + destruct (Hlevels 0 0 (mkLink "France" example_url) eq_refl) as [Hfailed _].
      apply Hfailed. exact I.
    + destruct (Hlevels 1 1 (mkLink "Iran" iran_url) eq_refl) as [_ Hserved].
      rewrite (Hserved page_do_not_travel); [reflexivity |].
      split; [simpl; lia | reflexivity].
Defined.

(** Runs the statements of a script one after the other. *)
Ltac run :=
  repeat (rewrite bind_run;
          rewrite ?print_run, ?emit_run, ?print_end_run, ?sleep_run, ?to_csv_run;
          cbv beta iota).

Section MainRun.

Lemma no_listing_run (w : World) : no_listing w = (Return tt, advance w 0 abort_message).
Proof. unfold no_listing. run. by rewrite advance_advance. Qed.

(** Up to the test on the listing. *)
Lemma main_run (w : World) :
  main w
  = match listing_of_outcome (http w (requests_made w) base_url) with
    | None => no_listing
    | Some countries_df =>
        if Nat.eqb (length countries_df) 0 then no_listing
        else scrape_and_save countries_df
    end (advance w 1 (banner ++ HttpGet base_url
                             :: fallback_log (http w (requests_made w) base_url))).
Proof.
  unfold main. run. rewrite get_country_urls_run. cbv beta iota.
  cbn [advance http requests_made Nat.add]. by rewrite !advance_advance.
Qed.

(** Without a listing, or with an empty one, [main] stops after the one
    request for the listing. *)
Lemma main_aborts (w : World) :
  listing_of_outcome (http w (requests_made w) base_url) = None
  \/ listing_of_outcome (http w (requests_made w) base_url) = Some [] ->
  main w
  = (Return tt,
     advance w 1 (banner ++ HttpGet base_url
                         :: fallback_log (http w (requests_made w) base_url)
                         ++ abort_message)).
Proof.
  intros H. rewrite main_run.
  destruct H as [-> | ->]; cbn [length Nat.eqb]; by rewrite no_listing_run, advance_advance.
Qed.

(** With a listing, [main] requests each country once and saves the table
    it assembles from the levels. *)
Lemma scrape_and_save_run (countries_df : DataFrame) (w : World) :
  exists evs,
    scrape_and_save countries_df w
    = (Return tt,
       advance (with_csv (advance w (length countries_df) evs)
                         (assemble countries_df (levels_from w 0 countries_df)))
               0
               (ToCsv csv_path (assemble countries_df (levels_from w 0 countries_df))
                :: report (assemble countries_df (levels_from w 0 countries_df))))
    /\ requests_of evs = map (fun r => url r.2) countries_df
    /\ tables_of evs = [].
Proof.
  unfold scrape_and_save. run.
  match goal with
  | |- context [scrape_levels ?t countries_df [] ?w'] =>
      destruct (scrape_levels_run t countries_df [] w') as (evs & -> & Hreq & Htab)
  end.
  cbv beta iota zeta. run. rewrite !advance_advance, levels_from_advance, app_nil_l.
  cbn [Nat.add]. rewrite !Nat.add_0_r.
  eexists. split_and!.
  - reflexivity.
  - by rewrite !requests_of_app, Hreq.
  - by rewrite !tables_of_app, Htab.
Qed.

End MainRun.

Section Assembler.

Lemma level_of_soup_ok (soup : Soup) : level_ok (level_of_soup soup).
Proof.
  rewrite level_of_soup_cascade, title_fallback_cascade.
  assert (forall table s,
            table = class_markers \/ table = title_markers ->
            level_ok (first_match table s)) as Hok.
  { intros table s Htable. destruct (first_match table s) as [z|] eqn:E; [| done].
    apply first_match_range in E. unfold level_ok.
    destruct Htable as [-> | ->]; cbn in E;
      repeat (apply elem_of_cons in E as [-> | E]; [cbn; set_solver |]);
      by apply elem_of_nil in E. }
  destruct (find soup "div" "accordion_travel") as [d|].
  - pose proof (Hok class_markers (Py.lower (class_string d)) (or_introl eq_refl)) as Hc.
    destruct (first_match class_markers (Py.lower (class_string d))); [done |].
    destruct (find soup "h3" "accordion__title") as [h|]; [| done].
    apply Hok. by right.
  - destruct (find soup "h3" "accordion__title") as [h|]; [| done].
    apply Hok. by right.
Qed.

Lemma level_of_outcome_ok (u : string) (o : HttpOutcome) : level_ok (level_of_outcome u o).
Proof.
  unfold level_of_outcome. destruct (fetched u o); [done | apply level_of_soup_ok].
Qed.

Lemma levels_from_ok (w : World) (k : nat) (rows : DataFrame) :
  Forall level_ok (levels_from w k rows).
Proof.
  revert k. induction rows as [|[idx row] rest IH]; intros k; simpl; constructor.
  - apply level_of_outcome_ok.
  - apply IH.
Qed.

Lemma add_columns_levels (df : DataFrame) (levels : list (option Z)) (r : AdvisoryRecord) :
  r ∈ add_columns df levels -> advisory_level r ∈ levels.
Proof.
  unfold add_columns. revert levels.
  induction df as [|row df IH]; intros [|level levels]; simpl; try by intros ?%elem_of_nil.
  intros [-> | H]%elem_of_cons; [by left | right; by apply IH].
Qed.

Lemma elem_of_assemble (df : DataFrame) (levels : list (option Z)) (r : AdvisoryRecord) :
  r ∈ assemble df levels ->
  exists z, advisory_level r = Some z /\ Some z ∈ levels
            /\ advisory_label r = level_labels !! z.
Proof.
  unfold assemble, attach_labels, notna.
  intros (r0 & -> & H%list_elem_of_In%List.filter_In)%list_elem_of_fmap.
  destruct H as [Hin%list_elem_of_In%add_columns_levels Hsome%bool_decide_eq_true].
  destruct Hsome as [z Hz]. exists z. simpl. rewrite Hz in *. done.
Qed.

Lemma assemble_ok (df : DataFrame) (levels : list (option Z)) :
  Forall level_ok levels -> Forall row_ok (assemble df levels).
Proof.
  intros Hlevels. apply Forall_forall. intros r (z & Hz & Hin & Hlabel)%elem_of_assemble.
  rewrite Forall_forall in Hlevels. specialize (Hlevels _ Hin). simpl in Hlevels.
  unfold row_ok. rewrite Hz, Hlabel.
  repeat (apply elem_of_cons in Hlevels as [-> | Hlevels];
          [eexists _, _; split_and!; [| reflexivity | vm_compute; reflexivity];
           unfold labelled_levels; set_solver |]).
  by apply elem_of_nil in Hlevels.
Qed.

End Assembler.

(** C5.  No row of the assembled table has an absent level; and in every
    run of [main], each row of a table that is saved has a level from 1 to
    4 and the label of that level. *)
Theorem C5_saved_rows_have_level_and_label :
  (forall (df : DataFrame) (levels : list (option Z)) (r : AdvisoryRecord),
      r ∈ assemble df levels -> is_Some (advisory_level r))
  /\ (forall w : World,
      exists evs,
        (main w).1 = Return tt
        /\ trace (main w).2 = (trace w ++ evs)%list
        /\ (forall rows, rows ∈ tables_of evs -> Forall row_ok rows)
        /\ (csv_file (main w).2 = csv_file w
            \/ exists rows, csv_file (main w).2 = Some rows /\ Forall row_ok rows)).
Proof.
  split.
  - intros df levels r (z & Hz & _)%elem_of_assemble. by exists z.
  - intros w. rewrite main_run.
    set (pre := (banner ++ HttpGet base_url
                        :: fallback_log (http w (requests_made w) base_url))%list).
    assert (tables_of pre = []) as Hpre.
    { subst pre. unfold fallback_log. by destruct (fetched _ _). }
    assert (exists evs,
      (no_listing (advance w 1 pre)).1 = Return tt
      /\ trace (no_listing (advance w 1 pre)).2 = (trace w ++ evs)%list
      /\ (forall rows, rows ∈ tables_of evs -> Forall row_ok rows)
      /\ (csv_file (no_listing (advance w 1 pre)).2 = csv_file w
          \/ exists rows, csv_file (no_listing (advance w 1 pre)).2 = Some rows
                          /\ Forall row_ok rows))
      as Hstop.
    { rewrite no_listing_run, advance_advance. exists (pre ++ abort_message)%list.
      split_and!; [done | done | | by left].
      rewrite tables_of_app, Hpre. by intros rows ?%elem_of_nil. }
    destruct (listing_of_outcome (http w (requests_made w) base_url)) as [df|];
      [| done].
    destruct (Nat.eqb (length df) 0); [done |].
    destruct (scrape_and_save_run df (advance w 1 pre)) as (evs & -> & _ & Htab).
    set (rows := assemble df (levels_from (advance w 1 pre) 0 df)).
    assert (Forall row_ok rows) as Hrows by apply assemble_ok, levels_from_ok.
    exists (pre ++ evs ++ ToCsv csv_path rows :: report rows)%list.
    split_and!; [done | | | right; by exists rows].
    + simpl. by rewrite <- !app_assoc.
    + intros rows'. rewrite !tables_of_app, Hpre, Htab. simpl.
      rewrite list_elem_of_singleton. by intros ->.
Qed.

Lemma C5_saved_rows_have_level_and_label_witness :
  exists evs rows,
    trace (main world_two_countries).2 = evs
    /\ rows ∈ tables_of evs
    /\ rows = [ mkRecord "Iran" iran_url (Some 4%Z) "Iran" (Some "Do Not Travel") ]
    /\ Forall row_ok rows.
Proof.
  destruct C5_saved_rows_have_level_and_label as [_ Hmain].
  destruct (Hmain world_two_countries) as (evs & _ & Htrace & Hok & _).
  exists evs, [ mkRecord "Iran" iran_url (Some 4%Z) "Iran" (Some "Do Not Travel") ].
  assert (tables_of evs
          = [[ mkRecord "Iran" iran_url (Some 4%Z) "Iran" (Some "Do Not Travel") ]])
    as Htables.
  { assert (evs = trace (main world_two_countries).2) as -> by (symmetry; exact Htrace).
    vm_compute. reflexivity. }
  split_and!.
  - exact Htrace.
  - rewrite Htables. by left.
  - reflexivity.
  - apply Hok. rewrite Htables. by left.
Defined.

(* ===================================================================== *)
(** ** Failure of the listing *)
(* ===================================================================== *)



(* ===================================================================== *)
(** ** The exports of the map *)
(* ===================================================================== *)

Section Exports.

Lemma write_image_run (path : string) (w : World) :
  write_image path w
  = (match image_export w with Some e => Raise e | None => Return tt end,
     advance w 0 [WriteImage path]).
Proof. unfold write_image, try_write, advance. by destruct (image_export w). Qed.

Lemma write_html_run (path : string) (w : World) :
  write_html path w = (html_result w, advance w 0 [WriteHtml path]).
Proof. unfold write_html, try_write, html_result, advance. by destruct (html_export w). Qed.

(** The tail of [export_figure], from [write_html] on. *)
Lemma export_html_run (w : World) :
  (write_html html_path;;
   print "Interactive map saved as 'irish_travel_advisory_map.html'";;
   print (Py.nl +:+ "You can open the HTML file in your browser to explore the interactive map."))
    w
  = (html_result w, advance w 0 (WriteHtml html_path :: html_log w)).
Proof.
  rewrite bind_run, write_html_run. unfold html_result, html_log.
  destruct (html_export w) as [e|]; [done |].
  run. by rewrite !advance_advance.
Qed.

Lemma export_figure_image_fails (w : World) (e : exn) :
  image_export w = Some e ->
  export_figure w
  = (html_result w,
     advance w 0 (WriteImage png_path :: png_warning e ++ WriteHtml html_path :: html_log w)).
Proof.
  intros He. unfold export_figure. rewrite bind_run. unfold try_except at 1.
  rewrite bind_run, write_image_run, He. cbv beta iota.
  rewrite bind_run, !print_run. cbv beta iota. rewrite export_html_run.
  unfold html_result, html_log. cbn [advance html_export].
  by rewrite !advance_advance.
Qed.

End Exports.

(** C9.  When [write_image] raises, the exception is caught: the warning
    and the note on kaleido are printed, and [write_html] is called next.
    So it is in [create_map] whenever the table file is there and its
    levels are all present: the run ends as [write_html] ends. *)
Theorem C9_image_failure_is_not_fatal (w : World) (e : exn) :
  image_export w = Some e ->
  export_figure w
  = (html_result w,
     advance w 0 (WriteImage png_path :: png_warning e ++ WriteHtml html_path :: html_log w))
  /\ forall rows levels,
       csv_file w = Some rows ->
       mapM advisory_level rows = Some levels ->
       exists before,
         create_map w
         = (html_result w,
            advance w 0 (before ++ WriteImage png_path :: png_warning e
                                ++ WriteHtml html_path :: html_log w)).
Proof.
  intros He. split; [by apply export_figure_image_fails |].
  intros rows levels Hcsv Hlevels. unfold create_map.
  rewrite bind_run. unfold try_except_FileNotFoundError.
  rewrite bind_run. unfold read_csv at 1. rewrite Hcsv. cbv beta iota.
  rewrite ret_run. cbv beta iota. run.
  unfold astype_int. rewrite Hlevels, ret_run. cbv beta iota. run.
  rewrite (export_figure_image_fails _ e) by done.
  unfold html_result, html_log. cbn [advance html_export].
  rewrite !advance_advance.
  exists [ Stdout (("Loaded data for " +:+ Py.str_nat (length rows) +:+ " countries")
                   +:+ Py.nl);
           FigShow (rename_traces (choropleth (map Py.str_Z levels))) ].
  reflexivity.
Qed.

Lemma C9_image_failure_is_not_fatal_witness :
  (create_map world_no_kaleido).1 = Return tt
  /\ exists before,
       trace (create_map world_no_kaleido).2
       = (before ++ WriteImage png_path
                 :: png_warning (Exception "kaleido is not installed")
                 ++ WriteHtml html_path :: html_saved)%list.
Proof.
  destruct (C9_image_failure_is_not_fatal world_no_kaleido
              (Exception "kaleido is not installed") eq_refl) as [_ Hmap].
  destruct (Hmap [ mkRecord "Iran" iran_url (Some 4%Z) "Iran" (Some "Do Not Travel") ]
                 [4%Z]) as [before ->].
  - vm_compute. reflexivity.
  - reflexivity.
  - split; [reflexivity |]. exists before. reflexivity.
Defined.

(* ===================================================================== *)
(** ** The scenarios of the specification *)
(* ===================================================================== *)

(** A container of class [accordion_travel do-not-travel accordion is-open]
    gives level 4 and the label of level 4. *)
Example scenario_fixture_page :
  class_string (mkTag "div" ["accordion_travel"; "do-not-travel"; "accordion"; "is-open"]
                      None EmptyString)
  = "accordion_travel do-not-travel accordion is-open"
  /\ (get_advisory_level example_url (serving page_do_not_travel)).1 = Return (Some 4%Z)
  /\ level_labels !! 4%Z = Some "Do Not Travel".
Proof. split_and!; vm_compute; reflexivity. Qed.

Example scenario_uae : standardize_country_name "Uae" = "United Arab Emirates".
Proof. vm_compute. reflexivity. Qed.

(** A table with the levels 1, 1, 2, 3, 4 gives four traces, in the order
    of the levels, with the four colours and the four legend names. *)
Example scenario_four_colours :
  rename_traces (choropleth (map Py.str_Z [1; 1; 2; 3; 4]%Z))
  = [ ("Level 1: Normal Precautions", Some "green");
      ("Level 2: High Degree of Caution", Some "yellow");
      ("Level 3: Avoid Unnecessary Travel", Some "orange");
      ("Level 4: Do Not Travel", Some "red") ].
Proof. vm_compute. reflexivity. Qed.

(** The two scripts one after the other: the table that [main] saves is
    the table that [create_map] loads. *)
Example scenario_scrape_then_map :
  csv_file (main world_two_countries).2
  = Some [ mkRecord "Iran" iran_url (Some 4%Z) "Iran" (Some "Do Not Travel") ]
  /\ (create_map world_no_kaleido).1 = Return tt
  /\ requests_of (trace (main world_two_countries).2)
     = [ base_url;
         "https://www.ireland.ie/en/dfa/overseas-travel/advice/a-z-list-of-countries/france/";
         iran_url ].
Proof. split_and!; vm_compute; reflexivity. Qed.

(* ===================================================================== *)
(** ** The string methods on examples *)
(* ===================================================================== *)

Example split_example :
  Py.split "/a/b//c/" "/"%char
  = [EmptyString; "a"; "b"; EmptyString; "c"; EmptyString].
Proof. reflexivity. Qed.

Example rstrip_example : Py.rstrip "/advice/france//" "/"%char = "/advice/france".
Proof. reflexivity. Qed.

Example title_example :
  Py.title "united states-of america o'neil 3rd" = "United States-Of America O'Neil 3Rd".
Proof. reflexivity. Qed.

Example strip_lower_example :
  Py.lower (Py.strip (" " +:+ Py.nl +:+ "  Do Not Travel " +:+ Py.nl)) = "do not travel".
Proof. reflexivity. Qed.

Example country_link_example :
  country_link "/en/dfa/overseas-travel/advice/a-z-list-of-countries/united-states-of-america/"
  = mkLink "United States Of America"
           "https://www.ireland.ie/en/dfa/overseas-travel/advice/a-z-list-of-countries/united-states-of-america/".
Proof. reflexivity. Qed.

Example drop_duplicates_example :
  drop_duplicates (pd_DataFrame [mkLink "A" "a"; mkLink "B" "b"; mkLink "A" "a"; mkLink "C" "c"])
  = [(0, mkLink "A" "a"); (1, mkLink "B" "b"); (3, mkLink "C" "c")].
Proof. reflexivity. Qed.

(* ===================================================================== *)
(** ** More on the string methods *)
(* ===================================================================== *)

Section PyMore.














Lemma rstrip_cons (s : string) (a c : ascii) :
  Py.rstrip s c <> EmptyString -> Py.rstrip (String a s) c = String a (Py.rstrip s c).
Proof. intros H. simpl. by destruct (Py.rstrip s c). Qed.







End PyMore.

(* ===================================================================== *)
(** ** More on the listing *)
(* ===================================================================== *)

Section ListingMore.

Lemma sublist_drop_duplicates_from (seen : list CountryLink) (df : DataFrame) :
  (drop_duplicates_from seen df).*2 `sublist_of` df.*2.
Proof.
  revert seen. induction df as [|[i r] df IH]; intros seen; simpl; [done |].
  case_bool_decide; simpl.
  - by apply sublist_cons.
  - by apply sublist_skip.
Qed.

Lemma listing_of_soup_rows (soup : Soup) :
  NoDup (listing_of_soup soup).*2
  /\ (listing_of_soup soup).*2 `sublist_of` links_of_soup soup
  /\ forall link, link ∈ (listing_of_soup soup).*2 <-> link ∈ links_of_soup soup.
Proof.
  unfold listing_of_soup, links_of_soup, drop_duplicates.
  rewrite collect_links_filter, app_nil_l. split_and!.
  - apply NoDup_drop_duplicates_from.
  - etrans; [apply sublist_drop_duplicates_from |]. by rewrite pd_DataFrame_rows.
  - intros link. rewrite elem_of_drop_duplicates_from, pd_DataFrame_rows, elem_of_nil.
    tauto.
Qed.

Lemma country_link_url (href : string) :
  url (country_link href)
  = if Py.startswith href "http" then href else "https://www.ireland.ie" +:+ href.
Proof. reflexivity. Qed.

Lemma country_link_url_absolute (href : string) :
  Py.startswith (url (country_link href)) "http" = true.
Proof.
  rewrite country_link_url. destruct (Py.startswith href "http") eqn:E; [done |].
  apply startswith_spec. by exists ("s://www.ireland.ie" +:+ href).
Qed.






End ListingMore.

(** X1.  Of a listing page that is served: no two rows of the result are
    equal, the rows are the links of the anchors that pass the tests, and
    they stand in the order of the anchors in the page. *)
Theorem X1_listing_rows_are_distinct (w : World) (soup : Soup) :
  serves (http w (requests_made w) base_url) soup ->
  exists df,
    (get_country_urls w).1 = Return (Some df)
    /\ NoDup df.*2
    /\ df.*2 `sublist_of` links_of_soup soup
    /\ forall link, link ∈ df.*2 <-> link ∈ links_of_soup soup.
Proof.
  intros H. exists (listing_of_soup soup).
  split; [by apply get_country_urls_serves | apply listing_of_soup_rows].
Qed.

Lemma X1_listing_rows_are_distinct_witness :
  exists df,
    (get_country_urls (serving page_repeated_anchor)).1 = Return (Some df)
    /\ NoDup df.*2
    /\ length df = 2
    /\ length (links_of_soup page_repeated_anchor) = 3.
Proof.
  destruct (X1_listing_rows_are_distinct (serving page_repeated_anchor)
              page_repeated_anchor) as (df & Hdf & Hnodup & _).
  - split; [simpl; lia | reflexivity].
  - exists df. split_and!; [exact Hdf | exact Hnodup | | reflexivity].
    assert (Some df = Some (listing_of_soup page_repeated_anchor)) as [= ->];
      [| reflexivity].
    assert (Return (Some df) = Return (Some (listing_of_soup page_repeated_anchor)))
      as [= ->]; [| reflexivity].
    rewrite <- Hdf. vm_compute. reflexivity.
Defined.

(** X2.  The address of a link is absolute: an href that starts with http
    is kept as it is, any other is put after https://www.ireland.ie, so
    that the address of every row of a listing starts with http. *)
Theorem X2_listing_urls_are_absolute :
  (forall href : string,
      url (country_link href)
      = if Py.startswith href "http" then href else "https://www.ireland.ie" +:+ href)
  /\ (forall soup link,
      link ∈ (listing_of_soup soup).*2 -> Py.startswith (url link) "http" = true).
Proof.
  split; [apply country_link_url |].
  intros soup link (href & _ & _ & ->)%elem_of_listing_of_soup.
  apply country_link_url_absolute.
Qed.

Lemma X2_listing_urls_are_absolute_witness :
  Py.startswith
    (url (mkLink "France"
       "https://www.ireland.ie/en/dfa/overseas-travel/advice/a-z-list-of-countries/france/"))
    "http" = true.
Proof.
  destruct X2_listing_urls_are_absolute as [_ H].
  apply (H page_repeated_anchor). vm_compute. by left.
Defined.





(* ===================================================================== *)
(** ** More on the loop and on [main] *)
(* ===================================================================== *)

Section LoopMore.

Lemma advance_ext (w : World) (n m : nat) (evs evs' : list Event) :
  n = m -> evs = evs' -> advance w n evs = advance w m evs'.
Proof. by intros -> ->. Qed.

Lemma scrape_log_advance (total : nat) (w : World) (n k : nat) (evs : list Event)
    (rows : DataFrame) :
  scrape_log total (advance w n evs) k rows = scrape_log total w (k + n) rows.
Proof.
  revert k. induction rows as [|[idx row] rest IH]; intros k; simpl; [done |].
  by rewrite Nat.add_assoc, IH.
Qed.

(** The loop, run in a world. *)
Lemma scrape_levels_exact (total : nat) (rows : DataFrame) (acc : list (option Z))
    (w : World) :
  scrape_levels total rows acc w
  = (Return (acc ++ levels_from w 0 rows)%list,
     advance w (length rows) (scrape_log total w 0 rows)).
Proof.
  revert acc w. induction rows as [|[idx row] rest IH]; intros acc w.
  - simpl. by rewrite app_nil_r, advance_0_nil.
  - cbn [scrape_levels].
    rewrite bind_run, print_end_run, bind_run, get_advisory_level_run.
    cbn [advance http requests_made Nat.add].
    set (o := http w (requests_made w) (url row)).
    assert ((if truthy (level_of_outcome (url row) o)
             then print ("Level " +:+ from_option Py.str_Z "None"
                                        (level_of_outcome (url row) o))
             else print "Unable to determine")
            = print (level_line (level_of_outcome (url row) o))) as ->.
    { unfold level_line. by destruct (truthy _). }
    rewrite bind_run, print_run, bind_run, sleep_run, !advance_advance.
    cbv beta iota. rewrite IH, advance_advance, levels_from_advance, scrape_log_advance.
    rewrite <- app_assoc. f_equal. apply advance_ext; [simpl; lia |].
    cbn [scrape_log levels_from Nat.add]. fold o.
    rewrite <- !app_assoc. reflexivity.
Qed.

Lemma schedule_of_app (evs evs' : list Event) :
  schedule_of (evs ++ evs') = (schedule_of evs ++ schedule_of evs')%list.
Proof. apply List.filter_app. Qed.

Lemma schedule_of_error_log (u : string) (o : HttpOutcome) : schedule_of (error_log u o) = [].
Proof. unfold error_log. by destruct (fetched u o). Qed.

Lemma schedule_of_scrape_log (total : nat) (w : World) (k : nat) (rows : DataFrame) :
  schedule_of (scrape_log total w k rows)
  = flat_map (fun r => [HttpGet (url r.2); Sleep 1]) rows.
Proof.
  revert k. induction rows as [|[idx row] rest IH]; intros k; [done |].
  cbn [scrape_log flat_map]. 
  change (schedule_of (?a :: ?b :: ?l)) with (schedule_of ([a; b] ++ l)).
  rewrite schedule_of_app, schedule_of_app, schedule_of_error_log.
  simpl. by rewrite IH.
Qed.

End LoopMore.

Section MainMore.

Lemma requests_of_fallback_log (o : HttpOutcome) : requests_of (fallback_log o) = [].
Proof. unfold fallback_log. by destruct (fetched base_url o). Qed.

Lemma tables_of_fallback_log (o : HttpOutcome) : tables_of (fallback_log o) = [].
Proof. unfold fallback_log. by destruct (fetched base_url o). Qed.

(** With a listing that has a row, [main] asks for each country and saves
    the table. *)
Lemma main_saves (w : World) (r : nat * CountryLink) (df : DataFrame) :
  listing_of_outcome (http w (requests_made w) base_url) = Some (r :: df) ->
  exists evs,
    main w
    = (Return tt,
       advance (with_csv (advance w (S (S (length df))) evs)
                         (assemble (r :: df) (levels_from w 1 (r :: df))))
               0
               (ToCsv csv_path (assemble (r :: df) (levels_from w 1 (r :: df)))
                :: report (assemble (r :: df) (levels_from w 1 (r :: df)))))
    /\ requests_of evs = base_url :: map (fun r => url r.2) (r :: df)
    /\ tables_of evs = [].
Proof.
  intros Hlisting. rewrite main_run, Hlisting. cbn [length Nat.eqb].
  match goal with
  | |- context [scrape_and_save (r :: df) ?w'] =>
      destruct (scrape_and_save_run (r :: df) w') as (evs & -> & Hreq & Htab)
  end.
  rewrite levels_from_advance, advance_advance. cbn [length Nat.add].
  rewrite Nat.add_1_r. eexists. split_and!; [reflexivity | |].
  - rewrite requests_of_app, Hreq. change (banner ++ ?a :: ?l)%list with
      (banner ++ [a] ++ l)%list. rewrite !requests_of_app, requests_of_fallback_log. done.
  - rewrite tables_of_app, Htab. change (banner ++ ?a :: ?l)%list with
      (banner ++ [a] ++ l)%list. rewrite !tables_of_app, tables_of_fallback_log. done.
Qed.

Lemma levels_from_all_fail (w : World) (k : nat) (rows : DataFrame) :
  (forall n u, k <= n -> fails (http w (n + requests_made w) u)) ->
  Forall (fun level => level = None) (levels_from w k rows).
Proof.
  revert k. induction rows as [|[idx row] rest IH]; intros k Hfail; simpl; constructor.
  - unfold level_of_outcome.
    destruct (proj1 (fetched_fails (url row) _) (Hfail k (url row) (le_n k))) as [e ->].
    done.
  - apply IH. intros n u Hn. apply Hfail. lia.
Qed.

Lemma assemble_all_absent (df : DataFrame) (levels : list (option Z)) :
  Forall (fun level => level = None) levels -> assemble df levels = [].
Proof.
  intros Hnone. destruct (assemble df levels) as [|r rows] eqn:E; [done |].
  assert (r ∈ assemble df levels) as (z & _ & Hin & _)%elem_of_assemble
    by (rewrite E; by left).
  rewrite Forall_forall in Hnone. by specialize (Hnone _ Hin).
Qed.

Lemma listing_of_soup_no_anchor (soup : Soup) :
  (forall href, href ∈ find_all_href soup "a" -> kept href = false) ->
  listing_of_soup soup = [].
Proof.
  intros Hnone. unfold listing_of_soup. rewrite collect_links_filter, app_nil_l.
  assert (List.filter kept (find_all_href soup "a") = []) as ->; [| done].
  induction (find_all_href soup "a") as [|href hrefs IH]; [done |]. simpl.
  rewrite (Hnone href) by (by left). apply IH. intros h Hh. apply Hnone. by right.
Qed.

End MainMore.

(** X5.  The loop over the countries asks for the page of each country in
    the order of the listing and pauses one second after each request,
    the last one too, whatever the requests come to. *)
Theorem X5_one_request_then_one_pause (total : nat) (rows : DataFrame) (w : World) :
  exists levels evs,
    scrape_levels total rows [] w = (Return levels, advance w (length rows) evs)
    /\ schedule_of evs = flat_map (fun r => [HttpGet (url r.2); Sleep 1]) rows.
Proof.
  exists (levels_from w 0 rows), (scrape_log total w 0 rows).
  split; [apply scrape_levels_exact | apply schedule_of_scrape_log].
Qed.

(** X6.  In every world [get_advisory_level] raises nothing and makes one
    request.  Its result is absent or a level from 1 to 4.  When the page
    is served it prints nothing and returns the level of the page; when the
    request fails it prints one line with the error and returns the absent
    level. *)
Theorem X6_extractor_is_safe (u : string) (w : World) :
  exists level log,
    get_advisory_level u w = (Return level, advance w 1 (HttpGet u :: log))
    /\ level ∈ [None; Some 1%Z; Some 2%Z; Some 3%Z; Some 4%Z]
    /\ ((exists soup, serves (http w (requests_made w) u) soup
                      /\ level = level_of_soup soup /\ log = [])
        \/ (exists e, fails (http w (requests_made w) u)
                      /\ level = None
                      /\ log = [Stdout ("  Error: " +:+ str_exn e +:+ Py.nl)])).
Proof.
  exists (level_of_outcome u (http w (requests_made w) u)),
         (error_log u (http w (requests_made w) u)).
  split_and!.
  - apply get_advisory_level_run.
  - pose proof (level_of_outcome_ok u (http w (requests_made w) u)) as Hok.
    destruct (level_of_outcome u (http w (requests_made w) u)) as [z|]; [| by left].
    simpl in Hok. right.
    repeat (apply elem_of_cons in Hok as [-> | Hok]; [set_solver |]).
    by apply elem_of_nil in Hok.
  - unfold level_of_outcome, error_log.
    destruct (fetched u (http w (requests_made w) u)) as [e | soup] eqn:E.
    + right. exists e. split_and!; [| done | done].
      apply (fetched_fails u). by exists e.
    + left. exists soup. split_and!; [| done | done]. by apply (fetched_serves u).
Qed.


(** X8.  When the listing has a row and the request for every country
    fails, [main] still saves a table: the table with no row. *)
Theorem X8_all_countries_fail (w : World) (r : nat * CountryLink) (df : DataFrame) :
  listing_of_outcome (http w (requests_made w) base_url) = Some (r :: df) ->
  (forall n u, 1 <= n -> fails (http w (n + requests_made w) u)) ->
  csv_file (main w).2 = Some []
  /\ exists evs, trace (main w).2 = (trace w ++ evs)%list /\ tables_of evs = [[]].
Proof.
  intros Hlisting Hfail. destruct (main_saves w r df Hlisting) as (evs & -> & _ & Htab).
  rewrite (assemble_all_absent (r :: df) (levels_from w 1 (r :: df)))
    by (by apply levels_from_all_fail).
  split; [done |]. exists (evs ++ ToCsv csv_path [] :: report [])%list. split.
  - simpl. by rewrite <- app_assoc.
  - by rewrite tables_of_app, Htab.
Qed.

Lemma X8_all_countries_fail_witness :
  csv_file (main world_listing_only).2 = Some []
  /\ requests_made (main world_listing_only).2 = 3.
Proof.
  split; [| vm_compute; reflexivity].
  eapply (X8_all_countries_fail world_listing_only).
  - vm_compute. reflexivity.
  - intros n u Hn. simpl. destruct n as [|n]; [lia |]. left. lia.
Defined.

(** X9.  When the listing page is served and none of its anchors passes
    the tests, [main] stops after the request for the listing: it prints
    that it cannot scrape the list, without the manual method that this
    message refers to, and saves nothing. *)
Theorem X9_listing_without_country (w : World) (soup : Soup) :
  serves (http w (requests_made w) base_url) soup ->
  (forall href, href ∈ find_all_href soup "a" -> kept href = false) ->
  (get_country_urls w).1 = Return (Some [])
  /\ main w = (Return tt, advance w 1 (banner ++ HttpGet base_url :: abort_message)).
Proof.
  intros Hserves Hnone.
  assert (fetched base_url (http w (requests_made w) base_url) = inr soup) as Hf
    by (by apply fetched_serves).
  assert (listing_of_outcome (http w (requests_made w) base_url) = Some []) as Hl.
  { unfold listing_of_outcome. by rewrite Hf, listing_of_soup_no_anchor. }
  split.
  - by rewrite get_country_urls_run, Hl.
  - rewrite main_aborts by (by right). unfold fallback_log. by rewrite Hf.
Qed.

Lemma X9_listing_without_country_witness :
  main world_no_anchor
  = (Return tt, advance world_no_anchor 1 (banner ++ HttpGet base_url :: abort_message)).
Proof.
  eapply (X9_listing_without_country world_no_anchor).
  - split; [simpl; lia | reflexivity].
  - rewrite find_all_href_listing_page. intros href Hin.
    repeat (apply elem_of_cons in Hin as [-> | Hin]; [vm_compute; reflexivity |]).
    by apply elem_of_nil in Hin.
Defined.

(* ===================================================================== *)
(** ** More on the table *)
(* ===================================================================== *)

Section TableMore.

Lemma assemble_nil_r (df : DataFrame) : assemble df [] = [].
Proof. by destruct df. Qed.

Lemma assemble_cons (x : nat * CountryLink) (df : DataFrame) (level : option Z)
    (levels : list (option Z)) :
  assemble (x :: df) (level :: levels)
  = match level with
    | Some z => record_of x.2 z :: assemble df levels
    | None => assemble df levels
    end.
Proof. by destruct level. Qed.

Lemma elem_of_assemble_iff (df : DataFrame) (levels : list (option Z)) (r : AdvisoryRecord) :
  r ∈ assemble df levels <->
  exists i idx row z,
    df !! i = Some (idx, row) /\ levels !! i = Some (Some z) /\ r = record_of row z.
Proof.
  revert levels. induction df as [|[idx0 row0] df IH]; intros levels.
  { split; [by intros ?%elem_of_nil | by intros (i & ? & ? & ? & ? & _)]. }
  destruct levels as [|level levels].
  { rewrite assemble_nil_r. split; [by intros ?%elem_of_nil | by intros (i & ? & ? & ? & _ & ? & _)]. }
  rewrite assemble_cons. split.
  - intros H.
    assert (r ∈ assemble df levels ->
            exists i idx row z,
              ((idx0, row0) :: df) !! i = Some (idx, row)
              /\ (level :: levels) !! i = Some (Some z) /\ r = record_of row z) as Htail.
    { intros (i & idx & row & z & Hi & Hl & ->)%IH. by exists (S i), idx, row, z. }
    destruct level as [z|]; [| by apply Htail].
    apply elem_of_cons in H as [-> | H]; [| by apply Htail].
    by exists 0, idx0, row0, z.
  - intros (i & idx & row & z & Hi & Hl & ->). destruct i as [|i]; simpl in *.
    + simplify_eq. by left.
    + assert (record_of row z ∈ assemble df levels) as Hin
        by (apply IH; by exists i, idx, row, z).
      destruct level; [by right | done].
Qed.

Lemma assemble_sublist (df : DataFrame) (levels : list (option Z)) :
  (fun r => mkLink (rec_country r) (rec_url r)) <$> assemble df levels `sublist_of` df.*2.
Proof.
  revert levels. induction df as [|[idx0 [c0 u0]] df IH]; intros levels; [done |].
  destruct levels as [|level levels].
  { rewrite assemble_nil_r. apply sublist_nil_l. }
  rewrite assemble_cons. destruct level as [z|]; simpl.
  - apply sublist_skip, IH.
  - apply sublist_cons, IH.
Qed.







End TableMore.

(** X10.  The table holds a row for a country exactly when a level was
    found for it: the row has the name and the address of the listing,
    the level, the normalized name and the label of the level.  The rows
    stand in the order of the listing, and are no more than its rows. *)
Theorem X10_table_rows (df : DataFrame) (levels : list (option Z)) :
  (forall r,
      r ∈ assemble df levels <->
      exists i idx row z,
        df !! i = Some (idx, row) /\ levels !! i = Some (Some z)
        /\ r = mkRecord (country row) (url row) (Some z)
                        (standardize_country_name (country row)) (level_labels !! z))
  /\ (fun r => mkLink (rec_country r) (rec_url r)) <$> assemble df levels `sublist_of` df.*2
  /\ length (assemble df levels) <= length df.
Proof.
  split_and!.
  - apply elem_of_assemble_iff.
  - apply assemble_sublist.
  - pose proof (sublist_length _ _ (assemble_sublist df levels)) as H.
    by rewrite !length_fmap in H.
Qed.

Lemma X10_table_rows_witness :
  mkRecord "Iran" iran_url (Some 3%Z) "Iran" (Some "Avoid Unnecessary Travel")
  ∈ assemble two_countries [None; Some 3%Z].
Proof.
  destruct (X10_table_rows two_countries [None; Some 3%Z]) as (H & _).
  apply H. exists 1, 1, (mkLink "Iran" iran_url), 3%Z.
  split_and!; [reflexivity | reflexivity | vm_compute; reflexivity].
Defined.


(* ===================================================================== *)
(** ** More on [create_map] *)
(* ===================================================================== *)

Section MapMore.

(** The two exports, run in a world. *)
Lemma export_figure_run (w : World) :
  export_figure w
  = (html_result w,
     advance w 0 (WriteImage png_path :: image_log w ++ WriteHtml html_path :: html_log w)).
Proof.
  unfold image_log. destruct (image_export w) as [e|] eqn:He.
  - by apply export_figure_image_fails.
  - unfold export_figure. rewrite bind_run. unfold try_except at 1.
    rewrite bind_run, write_image_run, He. cbv beta iota.
    rewrite print_run. cbv beta iota. rewrite export_html_run.
    unfold html_result, html_log. cbn [advance html_export].
    by rewrite !advance_advance.
Qed.

(** [create_map], run in a world. *)
Lemma create_map_run (w : World) :
  create_map w
  = match csv_file w with
    | None => (Return tt, advance w 0 missing_file_message)
    | Some rows =>
        match mapM advisory_level rows with
        | None =>
            (Raise (Exception "Cannot convert non-finite values (NA or inf) to integer"),
             advance w 0 [loaded_line rows])
        | Some levels => (html_result w, advance w 0 (map_log w rows levels))
        end
    end.
Proof.
  unfold create_map. rewrite bind_run. unfold try_except_FileNotFoundError.
  rewrite bind_run. unfold read_csv at 1.
  destruct (csv_file w) as [rows|] eqn:Hcsv; cbv beta iota.
  - rewrite ret_run. cbv beta iota. run. unfold astype_int.
    destruct (mapM advisory_level rows) as [levels|] eqn:Hlevels.
    + rewrite ret_run. cbv beta iota. run. rewrite export_figure_run.
      unfold html_result, html_log, image_log, map_log. cbn [advance html_export image_export].
      by rewrite !advance_advance.
    + done.
  - run. rewrite ret_run. cbv beta iota. rewrite ret_run.
    by rewrite !advance_advance.
Qed.

Lemma assemble_levels_present (df : DataFrame) (levels : list (option Z)) :
  is_Some (mapM advisory_level (assemble df levels)).
Proof.
  apply mapM_is_Some, Forall_forall. intros r (z & Hz & _)%elem_of_assemble.
  simpl. by rewrite Hz.
Qed.

Lemma find_app (soup extra : Soup) (name cls : string) :
  find (soup ++ extra)%list name cls
  = match find soup name cls with
    | Some t => Some t
    | None => find extra name cls
    end.
Proof.
  unfold find. induction soup as [|t soup IH]; [done |]. simpl.
  by destruct (String.eqb (tag_name t) name && bool_decide (cls ∈ tag_class t)).
Qed.

End MapMore.

(** X12.  Without the table file [create_map] prints where the table
    comes from and returns: it shows no figure and writes no file. *)
Theorem X12_missing_table (w : World) :
  csv_file w = None ->
  create_map w = (Return tt, advance w 0 missing_file_message).
Proof. intros H. by rewrite create_map_run, H. Qed.

Lemma X12_missing_table_witness :
  create_map world_no_table = (Return tt, advance world_no_table 0 missing_file_message).
Proof. apply X12_missing_table. reflexivity. Defined.

(** X13.  A table with a row that has no level makes [create_map] raise
    when it casts the levels to integers, after the line on the loaded
    rows: nothing catches it, no figure is shown and no file is written. *)
Theorem X13_row_without_level (w : World) (rows : list AdvisoryRecord) (r : AdvisoryRecord) :
  csv_file w = Some rows ->
  r ∈ rows ->
  advisory_level r = None ->
  exists e, create_map w = (Raise e, advance w 0 [loaded_line rows]).
Proof.
  intros Hcsv Hin Hnone. rewrite create_map_run, Hcsv.
  assert (mapM advisory_level rows = None) as ->; [| by eexists].
  apply mapM_None, Exists_exists. by exists r.
Qed.

Lemma X13_row_without_level_witness :
  exists e,
    create_map world_bad_table
    = (Raise e, advance world_bad_table 0
                  [Stdout ("Loaded data for 2 countries" +:+ Py.nl)]).
Proof.
  apply (X13_row_without_level world_bad_table
           [ mkRecord "Iran" iran_url (Some 4%Z) "Iran" (Some "Do Not Travel");
             mkRecord "France" example_url None "France" None ]
           (mkRecord "France" example_url None "France" None)).
  - reflexivity.
  - right. by left.
  - reflexivity.
Defined.



(** X15.  The two scripts one after the other.  After a run of [main] on a
    listing that has a row, [create_map] finds the table and can cast its
    levels: it reaches the two exports.  After a run of [main] that has no
    listing, with no table left from before, [create_map] finds no
    table. *)
Theorem X15_scrape_then_map (w : World) :
  (forall r df,
      listing_of_outcome (http w (requests_made w) base_url) = Some (r :: df) ->
      exists rows levels,
        csv_file (main w).2 = Some rows
        /\ mapM advisory_level rows = Some levels
        /\ create_map (main w).2
           = (html_result w, advance (main w).2 0 (map_log w rows levels)))
  /\ (listing_of_outcome (http w (requests_made w) base_url) = None
      \/ listing_of_outcome (http w (requests_made w) base_url) = Some [] ->
      csv_file w = None ->
      create_map (main w).2 = (Return tt, advance (main w).2 0 missing_file_message)).
Proof.
  split.
  - intros r df Hlisting. destruct (main_saves w r df Hlisting) as (evs & Hmain & _).
    set (rows := assemble (r :: df) (levels_from w 1 (r :: df))) in *.
    destruct (assemble_levels_present (r :: df) (levels_from w 1 (r :: df)))
      as [levels Hlevels]. fold rows in Hlevels.
    exists rows, levels. rewrite create_map_run, Hmain. cbn [snd csv_file advance with_csv].
    by rewrite Hlevels.
  - intros Hnone Hcsv. rewrite create_map_run, (main_aborts w Hnone).
    cbn [snd csv_file advance]. by rewrite Hcsv.
Qed.

Lemma X15_scrape_then_map_witness :
  exists rows levels,
    csv_file (main world_two_countries).2 = Some rows
    /\ mapM advisory_level rows = Some levels
    /\ (create_map (main world_two_countries).2).1 = Return tt.
Proof.
  destruct (X15_scrape_then_map world_two_countries) as [Hsaved _].
  destruct (Hsaved (0, mkLink "France"
              "https://www.ireland.ie/en/dfa/overseas-travel/advice/a-z-list-of-countries/france/")
              [(1, mkLink "Iran" iran_url)])
    as (rows & levels & Hcsv & Hlevels & Hmap).
  - vm_compute. reflexivity.
  - exists rows, levels. split_and!; [exact Hcsv | exact Hlevels |]. by rewrite Hmap.
Defined.

(** X16.  The tables of the two scripts agree: for each level that
    [main] labels, the legend of the map names the level and its label,
    under the integer and under the decimal spelling of the level, and the
    colour map has a colour for it. *)
Theorem X16_legend_agrees_with_labels :
  map_Forall
    (fun z label =>
       name_mapping !! Py.str_Z z = Some ("Level " +:+ Py.str_Z z +:+ ": " +:+ label)
       /\ name_mapping !! (Py.str_Z z +:+ ".0")
          = Some ("Level " +:+ Py.str_Z z +:+ ": " +:+ label)
       /\ is_Some (color_map !! Py.str_Z z)
       /\ Py.str_Z z ∈ category_orders)
    level_labels.
Proof. apply (bool_decide_unpack _). vm_compute. exact I. Qed.

(** X17.  Only the first container and the first title of a page are
    read: with a page that has both, tags added after them leave the
    level as it is. *)
Theorem X17_first_container_and_title (soup extra : Soup) (d h : Tag) :
  find soup "div" "accordion_travel" = Some d ->
  find soup "h3" "accordion__title" = Some h ->
  level_of_soup (soup ++ extra)%list = level_of_soup soup.
Proof.
  intros Hd Hh. rewrite !level_of_soup_cascade, !title_fallback_cascade, !find_app.
  by rewrite Hd, Hh.
Qed.

Lemma X17_first_container_and_title_witness :
  level_of_soup (page_two_containers ++ page_do_not_travel)%list = Some 2%Z.
Proof.
  rewrite (X17_first_container_and_title page_two_containers page_do_not_travel
             (mkTag "div" ["accordion_travel"; "accordion"] None EmptyString)
             (mkTag "h3" ["accordion__title"] None "High degree of caution"));
    reflexivity.
Defined.

